(** * Register-level models of two MAME devices

    - [M0110A]: the Apple M0110A keyboard (src/devices/bus/mackbd/pluskbd.cpp),
      its row drive / column read logic and its two-wire link to the host.
    - [Y8950]: the Y8950 sound chip front end (src/devices/sound/y8950.cpp),
      multiplexing an OPL FM engine and an ADPCM-B engine on one register
      port pair, one status byte and one mono stream.

    C++ fixed-width integers are carried as [Z]; every narrowing the source
    performs is written out with [u8], [u16] and [u32]. *)

From Stdlib Require Import ZArith List Bool Lia.
Import ListNotations.

Local Open Scope Z_scope.

(** ** Fixed-width helpers shared by both devices *)

Definition u8 (x : Z) : Z := Z.land x 0xff.
Definition u16 (x : Z) : Z := Z.land x 0xffff.
Definition u32 (x : Z) : Z := x mod 2 ^ 32.

(** [BIT(x, n)] of the emulator core: bit [n] of [x] as 0 or 1. *)
Definition BIT (x n : Z) : Z := Z.land (Z.shiftr x n) 1.

(** C++ conversion of an integer to [bool]. *)
Definition to_bool (x : Z) : bool := negb (x =? 0).

Definition is_byte (x : Z) : Prop := 0 <= x < 256.

(** ** The M0110A keyboard *)

Module M0110A.

(** Notifications pushed to the host side of the two-wire link. *)
Inductive line_event : Type :=
| write_clock (state : Z)
| write_data (state : Z).

(** Device members, the notifications emitted so far (oldest first) and
    the scheduler's queue of [update_host_data] callbacks waiting for the
    next synchronization point (oldest first). *)
Record m0110a_device : Type := mk_device {
  m_row_drive : Z;          (* u16, active low *)
  m_host_clock_out : Z;     (* u8, idle high *)
  m_host_data_out : Z;      (* u8, idle high *)
  m_host_data_in : Z;       (* u8, idle high *)
  host_link : list line_event;
  scheduler : list Z
}.

Definition set_row_drive (v : Z) (k : m0110a_device) : m0110a_device :=
  mk_device v (m_host_clock_out k) (m_host_data_out k) (m_host_data_in k)
            (host_link k) (scheduler k).

Definition set_host_clock_out (v : Z) (k : m0110a_device) : m0110a_device :=
  mk_device (m_row_drive k) v (m_host_data_out k) (m_host_data_in k)
            (host_link k) (scheduler k).

Definition set_host_data_out (v : Z) (k : m0110a_device) : m0110a_device :=
  mk_device (m_row_drive k) (m_host_clock_out k) v (m_host_data_in k)
            (host_link k) (scheduler k).

Definition set_host_data_in (v : Z) (k : m0110a_device) : m0110a_device :=
  mk_device (m_row_drive k) (m_host_clock_out k) (m_host_data_out k) v
            (host_link k) (scheduler k).

Definition notify (e : line_event) (k : m0110a_device) : m0110a_device :=
  mk_device (m_row_drive k) (m_host_clock_out k) (m_host_data_out k)
            (m_host_data_in k) (host_link k ++ [e]) (scheduler k).

Definition set_scheduler (q : list Z) (k : m0110a_device) : m0110a_device :=
  mk_device (m_row_drive k) (m_host_clock_out k) (m_host_data_out k)
            (m_host_data_in k) (host_link k) q.

(** [device_start]: members at power-on, nothing emitted, nothing queued. *)
Definition device_start : m0110a_device :=
  mk_device 0x03ff 1 1 0x01 [] [].

(** [host_data_r]: the host data line as the MPU port sees it. *)
Definition host_data_r (k : m0110a_device) : Z :=
  Z.lxor (m_host_data_in k) 0x01.

(** [p1_w]: port 1 drives rows 0-7. *)
Definition p1_w (data : Z) (k : m0110a_device) : m0110a_device :=
  set_row_drive (u16 (Z.lor (Z.land (m_row_drive k) 0x0300) (u16 data))) k.

(** [p2_w]: port 2 drives rows 8-9 and the two host lines; the clock line
    is compared and pushed first, the data line second. *)
Definition p2_w (data : Z) (k : m0110a_device) : m0110a_device :=
  let k :=
    set_row_drive
      (u16 (Z.lor (Z.land (m_row_drive k) 0x00ff)
                  (Z.shiftl (u16 (Z.land data 0x03)) 8))) k in
  let k :=
    if BIT data 6 =? m_host_clock_out k then k
    else notify (write_clock (BIT data 6))
                (set_host_clock_out (BIT data 6) k) in
  if BIT data 7 =? m_host_data_out k then k
  else notify (write_data (BIT data 7))
              (set_host_data_out (BIT data 7) k).

(** Number of row ports ([required_ioport_array<10>]). *)
Definition m_rows_size : nat := 10.

(** The [for] loop of [bus_r]: [todo] iterations are left, [i] is the loop
    index and [result] the [u8] accumulator.  [rows i] is what
    [m_rows[i]->read()] returns at this instant. *)
Fixpoint bus_r_loop (rows : nat -> Z) (row_drive : Z)
         (todo i : nat) (result : Z) : Z :=
  match todo with
  | O => result
  | S todo' =>
      bus_r_loop rows row_drive todo' (S i)
        (if BIT row_drive (Z.of_nat i) =? 0
         then u8 (Z.land result (rows i))
         else result)
  end.

(** [bus_r]: the value and the device after the call. *)
Definition bus_r (rows : nat -> Z) (k : m0110a_device) : Z * m0110a_device :=
  (bus_r_loop rows (m_row_drive k) m_rows_size 0 0xff, k).

(** [update_host_data]: the timer callback that applies a host edge. *)
Definition update_host_data (param : Z) (k : m0110a_device) : m0110a_device :=
  if Bool.eqb (to_bool param) (to_bool (m_host_data_in k)) then k
  else set_host_data_in (if to_bool param then 0x01 else 0x00) k.

(** Modelled from the spec: the scheduler's [synchronize] is not part of
    the sources at hand.  A request is queued for the current instant and
    the queue is served first in, first out at the next synchronization
    point. *)
Definition synchronize (param : Z) (k : m0110a_device) : m0110a_device :=
  set_scheduler (scheduler k ++ [param]) k.

(** [data_w]: a host edge is only handed to the scheduler. *)
Definition data_w (state : Z) (k : m0110a_device) : m0110a_device :=
  synchronize state k.

(** Modelled from the spec: the scheduler serving one queued callback. *)
Definition serve_one (k : m0110a_device) : m0110a_device :=
  match scheduler k with
  | [] => k
  | param :: rest => update_host_data param (set_scheduler rest k)
  end.

(** Modelled from the spec: the scheduler serving [n] queued callbacks. *)
Fixpoint serve (n : nat) (k : m0110a_device) : m0110a_device :=
  match n with
  | O => k
  | S n' => serve n' (serve_one k)
  end.

(** Modelled from the spec: a synchronization point serves everything
    queued. *)
Definition synchronization_point (k : m0110a_device) : m0110a_device :=
  serve (length (scheduler k)) k.

(** The column byte as the spec words it: the AND of the rows whose drive
    bit is clear, 0xFF when there is none. *)
Definition selected_rows (row_drive : Z) : list nat :=
  filter (fun i => negb (Z.testbit row_drive (Z.of_nat i)))
         (seq 0 m_rows_size).

Definition and_of_selected (rows : nat -> Z) (row_drive : Z) : Z :=
  fold_right Z.land 0xff (map rows (selected_rows row_drive)).

(** The host line levels a sequence of queued edges leads to, one after
    the other. *)
Definition apply_edges (params : list Z) (k : m0110a_device) : m0110a_device :=
  fold_left (fun k p => update_host_data p k) params k.

End M0110A.

(** ** The Y8950 sound chip *)

Module Y8950.

(** *** The collaborating engines

    The FM engine ([m_opl]) and the ADPCM-B engine ([m_adpcm_b]) live
    outside these sources; the chip only uses the operations below. *)

Class FmEngine (E : Type) : Type := {
  fm_status : E -> Z;                              (* status() *)
  fm_set_reset_status : Z -> Z -> E -> E;          (* set_reset_status(set, reset) *)
  fm_set_irq_mask : Z -> E -> E;                   (* set_irq_mask(mask) *)
  fm_write : Z -> Z -> E -> E;                     (* write(regnum, data) *)
  fm_clock : Z -> E -> E;                          (* clock(chanmask) *)
  (* output(&out, rshift, clipmax, chanmask): the new content of *out *)
  fm_output : E -> Z -> Z -> Z -> Z -> Z
}.

Class AdpcmEngine (A : Type) : Type := {
  adpcm_status : Z -> A -> Z;                      (* status(chnum) *)
  adpcm_read : Z -> A -> Z * A;                    (* read(regnum) *)
  adpcm_write : Z -> Z -> A -> A;                  (* write(regnum, data) *)
  adpcm_clock : Z -> A -> A;                       (* clock(chanmask) *)
  (* output(outputs, rshift, chanmask): the new content of outputs *)
  adpcm_output : A -> list Z -> Z -> Z -> list Z
}.

(** Constants of the missing headers (y8950.h and the engine headers). *)
Class Constants : Type := {
  STATUS_EOS : Z;                (* ymadpcm_b_channel::STATUS_EOS *)
  STATUS_BRDY : Z;               (* ymadpcm_b_channel::STATUS_BRDY *)
  STATUS_PLAYING : Z;            (* ymadpcm_b_channel::STATUS_PLAYING *)
  STATUS_ADPCM_B_EOS : Z;
  STATUS_ADPCM_B_BRDY : Z;
  STATUS_ADPCM_B_PLAYING : Z;
  ALL_IRQS : Z
}.

(** The last stage of the sample path, also outside these sources. *)
Class Dac : Type := {
  ymfm_roundtrip_fp : Z -> Z;
  (* put_int_clamp(index, sample, maxclamp): the integer sample stored *)
  put_int_clamp : Z -> Z -> Z
}.

(** What the chip pushes to its external collaborators. *)
Inductive bus_event : Type :=
| keyboard_write (offset data : Z)
| io_write (offset data : Z)
| logerror (offset : Z).

Section Device.

Context {E A : Type} `{FmEngine E} `{AdpcmEngine A} `{Constants} `{Dac}.

(** Device members, followed by the surroundings the chip talks to:
    - [sums] is the buffer that [sound_stream_update] names [sums] when
      it mixes the ADPCM-B output; the function's own accumulator is the
      local [sum];
    - [stream_due] is the number of samples the stream owes up to the
      current instant and [stream_out] the samples written so far;
    - [keyboard_in] and [io_in] are what the two read handlers return;
    - [bus_out] lists the handler calls made so far, oldest first. *)
Record y8950_device : Type := mk_device {
  m_address : Z;
  m_io_ddr : Z;
  m_irq_mask : Z;
  m_opl : E;
  m_adpcm_b : A;
  sums : list Z;
  stream_due : nat;
  stream_out : list Z;
  keyboard_in : Z;
  io_in : Z;
  bus_out : list bus_event
}.

Definition set_address (v : Z) (d : y8950_device) : y8950_device :=
  mk_device v (m_io_ddr d) (m_irq_mask d) (m_opl d) (m_adpcm_b d) (sums d)
            (stream_due d) (stream_out d) (keyboard_in d) (io_in d) (bus_out d).

Definition set_io_ddr (v : Z) (d : y8950_device) : y8950_device :=
  mk_device (m_address d) v (m_irq_mask d) (m_opl d) (m_adpcm_b d) (sums d)
            (stream_due d) (stream_out d) (keyboard_in d) (io_in d) (bus_out d).

Definition set_irq_mask (v : Z) (d : y8950_device) : y8950_device :=
  mk_device (m_address d) (m_io_ddr d) v (m_opl d) (m_adpcm_b d) (sums d)
            (stream_due d) (stream_out d) (keyboard_in d) (io_in d) (bus_out d).

Definition set_opl (e : E) (d : y8950_device) : y8950_device :=
  mk_device (m_address d) (m_io_ddr d) (m_irq_mask d) e (m_adpcm_b d) (sums d)
            (stream_due d) (stream_out d) (keyboard_in d) (io_in d) (bus_out d).

Definition set_adpcm_b (a : A) (d : y8950_device) : y8950_device :=
  mk_device (m_address d) (m_io_ddr d) (m_irq_mask d) (m_opl d) a (sums d)
            (stream_due d) (stream_out d) (keyboard_in d) (io_in d) (bus_out d).

Definition set_sums (l : list Z) (d : y8950_device) : y8950_device :=
  mk_device (m_address d) (m_io_ddr d) (m_irq_mask d) (m_opl d) (m_adpcm_b d) l
            (stream_due d) (stream_out d) (keyboard_in d) (io_in d) (bus_out d).

Definition set_stream (due : nat) (out : list Z) (d : y8950_device)
  : y8950_device :=
  mk_device (m_address d) (m_io_ddr d) (m_irq_mask d) (m_opl d) (m_adpcm_b d)
            (sums d) due out (keyboard_in d) (io_in d) (bus_out d).

Definition emit (e : bus_event) (d : y8950_device) : y8950_device :=
  mk_device (m_address d) (m_io_ddr d) (m_irq_mask d) (m_opl d) (m_adpcm_b d)
            (sums d) (stream_due d) (stream_out d) (keyboard_in d) (io_in d)
            (bus_out d ++ [e]).

(** [combine_status].  The source spells the engine [m_opn] here; the
    chip owns one FM engine, the [m_opl] its constructor initialises. *)
Definition combine_status (d : y8950_device) : Z * y8950_device :=
  let status := u8 (fm_status (m_opl d)) in
  let adpcm_st := u8 (adpcm_status 0 (m_adpcm_b d)) in
  let status :=
    if Z.land adpcm_st STATUS_EOS =? 0 then status
    else u8 (Z.lor status STATUS_ADPCM_B_EOS) in
  let status :=
    if Z.land adpcm_st STATUS_BRDY =? 0 then status
    else u8 (Z.lor status STATUS_ADPCM_B_BRDY) in
  let status :=
    if Z.land adpcm_st STATUS_PLAYING =? 0 then status
    else u8 (Z.lor status STATUS_ADPCM_B_PLAYING) in
  let status := u8 (Z.land status (m_irq_mask d)) in
  (status,
   set_opl (fm_set_reset_status status (u8 (Z.lnot status)) (m_opl d)) d).

(** [read].  A [switch] over constant labels is a chain of equality
    tests; a [switch] without [default] does nothing elsewhere. *)
Definition read (offset : Z) (d : y8950_device) : Z * y8950_device :=
  let result := 0xff in
  if Z.land offset 1 =? 0 then          (* status port *)
    combine_status d
  else if Z.land offset 1 =? 1 then     (* data port *)
    if m_address d =? 0x05 then         (* keyboard in *)
      (u8 (keyboard_in d), d)
    else if (m_address d =? 0x09) || (m_address d =? 0x1a) then (* ADPCM data *)
      let (r, a) := adpcm_read (u32 (offset - 0x07)) (m_adpcm_b d) in
      (u8 r, set_adpcm_b a d)
    else if m_address d =? 0x19 then    (* I/O data *)
      (u8 (io_in d), d)
    else
      (result, emit (logerror (Z.land offset 3)) d)
  else (result, d).

(** One pass of the loop body of [sound_stream_update]. *)
Definition sample_tick (d : y8950_device) : y8950_device :=
  let d := set_opl (fm_clock 0x1ff (m_opl d)) d in
  let d := set_adpcm_b (adpcm_clock 0x01 (m_adpcm_b d)) d in
  let sum := 0 in
  let sum := fm_output (m_opl d) sum 1 32767 0x1ff in
  let d := set_sums (adpcm_output (m_adpcm_b d) (sums d) 2 0x01) d in
  set_stream (stream_due d)
             (stream_out d ++ [put_int_clamp (ymfm_roundtrip_fp sum) 32768]) d.

(** [sound_stream_update] for an output view of [samples] samples. *)
Fixpoint sound_stream_update (samples : nat) (d : y8950_device)
  : y8950_device :=
  match samples with
  | O => d
  | S n => sound_stream_update n (sample_tick d)
  end.

(** Modelled from the spec: [m_stream->update()] belongs to the stream
    framework, which is not part of the sources at hand.  It brings the
    stream up to the current instant by asking the chip for every
    sample still owed. *)
Definition stream_update (d : y8950_device) : y8950_device :=
  let d := sound_stream_update (stream_due d) d in
  set_stream O (stream_out d) d.

(** The labels of the [case] group commented "ADPCM-B registers". *)
Definition adpcm_b_registers : list Z :=
  [0x07; 0x0a; 0x0b; 0x0c; 0x0d; 0x0e; 0x0f; 0x10; 0x11; 0x12;
   0x15; 0x16; 0x17].

Definition is_adpcm_b_register (a : Z) : bool :=
  existsb (Z.eqb a) adpcm_b_registers.

(** The inner [switch (m_address)] of [write]. *)
Definition write_data (value : Z) (d : y8950_device) : y8950_device :=
  if m_address d =? 0x04 then           (* IRQ control *)
    let d := set_irq_mask (u8 (Z.land (Z.lnot value) ALL_IRQS)) d in
    let d := set_opl (fm_set_irq_mask (m_irq_mask d) (m_opl d)) d in
    let d := set_opl (fm_write (m_address d) value (m_opl d)) d in
    snd (combine_status d)
  else if m_address d =? 0x06 then      (* keyboard out *)
    emit (keyboard_write 0 value) d
  else if m_address d =? 0x08 then      (* split OPL/ADPCM-B *)
    let d := set_adpcm_b (adpcm_write (u32 (m_address d - 0x07))
                                      (u8 (Z.land value 0x0f))
                                      (m_adpcm_b d)) d in
    set_opl (fm_write (m_address d) (u8 (Z.land value 0xc0)) (m_opl d)) d
  else if is_adpcm_b_register (m_address d) then
    set_adpcm_b (adpcm_write (u32 (m_address d - 0x07)) value (m_adpcm_b d)) d
  else if m_address d =? 0x18 then      (* I/O direction *)
    set_io_ddr (u8 (Z.land value 0x0f)) d
  else if m_address d =? 0x19 then      (* I/O data *)
    emit (io_write 0 (u8 (Z.land value (m_io_ddr d)))) d
  else                                  (* everything else to OPL *)
    set_opl (fm_write (m_address d) value (m_opl d)) d.

(** [write]. *)
Definition write (offset value : Z) (d : y8950_device) : y8950_device :=
  if Z.land offset 1 =? 0 then          (* address port *)
    set_address value d
  else if Z.land offset 1 =? 1 then     (* data port *)
    write_data value (stream_update d)  (* force an update, then dispatch *)
  else d.

(** The status byte as the spec words it: the OR of the FM engine's
    status with the chip-level flag of every ADPCM-B condition that is
    up, before the IRQ mask is applied. *)
Definition adpcm_flag (src chip : Z) (d : y8950_device) : Z :=
  if Z.land (u8 (adpcm_status 0 (m_adpcm_b d))) src =? 0 then 0 else chip.

Definition raw_status (d : y8950_device) : Z :=
  u8 (Z.lor (Z.lor (Z.lor (fm_status (m_opl d))
                          (adpcm_flag STATUS_EOS STATUS_ADPCM_B_EOS d))
                   (adpcm_flag STATUS_BRDY STATUS_ADPCM_B_BRDY d))
            (adpcm_flag STATUS_PLAYING STATUS_ADPCM_B_PLAYING d)).

End Device.

Arguments y8950_device E A : clear implicits.

End Y8950.


(** ** A test bench for the Y8950: instrumented engines

    Stand-ins for the two engines that record every call they receive, as a
    test of the routing table would use them. *)

Module Bench.

Import Y8950.

Inductive fm_call : Type :=
| fm_call_set_reset_status (set reset : Z)
| fm_call_set_irq_mask (mask : Z)
| fm_call_write (regnum data : Z)
| fm_call_clock (chanmask : Z).

Inductive adpcm_call : Type :=
| adpcm_call_read (regnum : Z)
| adpcm_call_write (regnum data : Z)
| adpcm_call_clock (chanmask : Z).

(** The recording FM engine: a status register, the level it currently
    contributes to an output accumulator, and its call log (oldest first). *)
Record fm_probe : Type := mk_fm {
  fm_probe_status : Z;
  fm_probe_level : Z;
  fm_probe_log : list fm_call
}.

(** The recording ADPCM-B engine; register [r] reads back as [u8 r]. *)
Record adpcm_probe : Type := mk_adpcm {
  adpcm_probe_status : Z;
  adpcm_probe_level : Z;
  adpcm_probe_log : list adpcm_call
}.

#[export] Instance fm_probe_engine : FmEngine fm_probe := {
  fm_status e := fm_probe_status e;
  fm_set_reset_status set reset e :=
    mk_fm (u8 (Z.land (Z.lor (fm_probe_status e) set) (Z.lnot reset)))
          (fm_probe_level e)
          (fm_probe_log e ++ [fm_call_set_reset_status set reset]);
  fm_set_irq_mask mask e :=
    mk_fm (fm_probe_status e) (fm_probe_level e)
          (fm_probe_log e ++ [fm_call_set_irq_mask mask]);
  fm_write regnum data e :=
    mk_fm (fm_probe_status e) (fm_probe_level e)
          (fm_probe_log e ++ [fm_call_write regnum data]);
  fm_clock chanmask e :=
    mk_fm (fm_probe_status e) (fm_probe_level e)
          (fm_probe_log e ++ [fm_call_clock chanmask]);
  fm_output e out rshift clipmax chanmask := out + fm_probe_level e
}.

#[export] Instance adpcm_probe_engine : AdpcmEngine adpcm_probe := {
  adpcm_status chnum a := adpcm_probe_status a;
  adpcm_read regnum a :=
    (u8 regnum,
     mk_adpcm (adpcm_probe_status a) (adpcm_probe_level a)
              (adpcm_probe_log a ++ [adpcm_call_read regnum]));
  adpcm_write regnum data a :=
    mk_adpcm (adpcm_probe_status a) (adpcm_probe_level a)
             (adpcm_probe_log a ++ [adpcm_call_write regnum data]);
  adpcm_clock chanmask a :=
    mk_adpcm (adpcm_probe_status a) (adpcm_probe_level a)
             (adpcm_probe_log a ++ [adpcm_call_clock chanmask]);
  adpcm_output a outputs rshift chanmask :=
    map (Z.add (adpcm_probe_level a)) outputs
}.

(** A bench assignment of the header constants: one bit per flag, and the
    four interrupt sources (timer A 0x40, timer B 0x20, EOS, BRDY) in
    [ALL_IRQS]. *)
#[export] Instance bench_constants : Constants := {
  STATUS_EOS := 0x01;
  STATUS_BRDY := 0x02;
  STATUS_PLAYING := 0x04;
  STATUS_ADPCM_B_EOS := 0x10;
  STATUS_ADPCM_B_BRDY := 0x08;
  STATUS_ADPCM_B_PLAYING := 0x01;
  ALL_IRQS := 0x78
}.

(** Modelled from the spec: the exponent of the 10-bit-mantissa,
    3-bit-exponent form of a 16-bit sample, the least shift that leaves a
    signed 10-bit mantissa. *)
Fixpoint roundtrip_shift (fuel : nat) (shift value : Z) : Z :=
  match fuel with
  | O => shift
  | S fuel' =>
      if (-512 <=? Z.shiftr value shift) && (Z.shiftr value shift <=? 511)
      then shift
      else roundtrip_shift fuel' (shift + 1) value
  end.

(** Modelled from the spec: conversion to the 10.3 floating form and back,
    which drops the bits the mantissa cannot hold. *)
Definition roundtrip_10_3 (value : Z) : Z :=
  let value := Z.max (-32768) (Z.min 32767 value) in
  let shift := roundtrip_shift 6 0 value in
  Z.shiftl (Z.shiftr value shift) shift.

(** Modelled from the spec: clamping to the signed range of the given
    magnitude. *)
Definition clamp_sample (sample maxclamp : Z) : Z :=
  Z.max (- maxclamp) (Z.min maxclamp sample).

#[export] Instance bench_dac : Dac := {
  ymfm_roundtrip_fp := roundtrip_10_3;
  put_int_clamp := clamp_sample
}.

Definition bench_device : Type := y8950_device fm_probe adpcm_probe.

(** A freshly constructed chip ([m_address] 0, [m_io_ddr] 0, [m_irq_mask]
    [ALL_IRQS]) around idle probes, with a stereo-shaped [sums] buffer. *)
Definition power_on : bench_device :=
  mk_device 0 0 ALL_IRQS (mk_fm 0 0 []) (mk_adpcm 0 0 []) [0; 0]
            O [] 0xff 0xff [].

(** The same chip with its address latch at [a]. *)
Definition latched (a : Z) : bench_device := write 0 a power_on.

(** The chip with given engine levels, owing [due] samples. *)
Definition playing (fm_level adpcm_level : Z) (due : nat) : bench_device :=
  mk_device 0 0 ALL_IRQS (mk_fm 0 fm_level []) (mk_adpcm 0 adpcm_level [])
            [0; 0] due [] 0xff 0xff [].

(** The chip with given engine status registers. *)
Definition flagged (fm_st adpcm_st : Z) : bench_device :=
  mk_device 0 0 ALL_IRQS (mk_fm fm_st 0 []) (mk_adpcm adpcm_st 0 []) [0; 0]
            O [] 0xff 0xff [].

(** What the probes saw of one data-port write of [v] at address [a]. *)
Definition routed (a v : Z) : list fm_call * list adpcm_call :=
  let d := write 1 v (latched a) in
  (fm_probe_log (m_opl d), adpcm_probe_log (m_adpcm_b d)).

(** The ADPCM-B part of the routing table as the spec words it: one
    contiguous range [lo..hi] of addresses is sent to the ADPCM-B engine 7
    registers lower, and what lies outside it (the five special addresses
    apart) is sent to the FM engine unchanged. *)
Definition contiguous_adpcm_range (lo hi : Z) : Prop :=
  forall a v, is_byte a -> is_byte v ->
    ~ In a [0x04; 0x06; 0x08; 0x18; 0x19] ->
    (lo <= a <= hi -> routed a v = ([], [adpcm_call_write (a - 0x07) v]))
    /\ (~ lo <= a <= hi -> routed a v = ([fm_call_write a v], [])).

End Bench.

(** ** Sequences of accesses

    The keyboard as its MPU drives it, and the sound chip as its host bus
    drives it: one access after the other, starting from a given device. *)

Module KeyboardRun.

Import M0110A.

(** What can happen to the keyboard: a write to port 1, a write to port 2,
    or the timer callback [update_host_data] firing with [param]. *)
Inductive access : Type :=
| port1_write (data : Z)
| port2_write (data : Z)
| host_timer (param : Z).

Definition step (a : access) (k : m0110a_device) : m0110a_device :=
  match a with
  | port1_write data => p1_w data k
  | port2_write data => p2_w data k
  | host_timer param => update_host_data param k
  end.

Definition run (l : list access) (k : m0110a_device) : m0110a_device :=
  fold_left (fun k a => step a k) l k.

(** Port data is a [u8] in the source. *)
Definition access_ok (a : access) : Prop :=
  match a with
  | port1_write data => is_byte data
  | port2_write data => is_byte data
  | host_timer _ => True
  end.

(** The levels pushed on the clock line, oldest first; likewise for the
    data line. *)
Definition clock_levels (l : list line_event) : list Z :=
  flat_map (fun e => match e with write_clock s => [s] | write_data _ => [] end) l.

Definition data_levels (l : list line_event) : list Z :=
  flat_map (fun e => match e with write_data s => [s] | write_clock _ => [] end) l.

(** Every level is the opposite of the one before it, [prev] being the
    level of the line before the first of them. *)
Fixpoint alternates (prev : Z) (levels : list Z) : bool :=
  match levels with
  | [] => true
  | x :: rest => (x =? 1 - prev) && alternates x rest
  end.

Definition is_bit (x : Z) : Prop := x = 0 \/ x = 1.

(** The members hold what their comments say: a 10-bit row mask and three
    line levels. *)
Definition well_formed (k : m0110a_device) : Prop :=
  0 <= m_row_drive k < 1024
  /\ is_bit (m_host_clock_out k)
  /\ is_bit (m_host_data_out k)
  /\ is_bit (m_host_data_in k).

End KeyboardRun.

Module ChipRun.

Import Y8950.

(** A host access to the chip's two ports. *)
Inductive bus_access : Type :=
| bus_read (offset : Z)
| bus_write (offset value : Z).

(** Every access but a write to the address port. *)
Definition is_data_access (a : bus_access) : Prop :=
  match a with
  | bus_read _ => True
  | bus_write offset _ => Z.land offset 1 = 1
  end.

(** The I/O-output handler only ever sees the low nibble. *)
Definition io_events_gated (l : list bus_event) : Prop :=
  Forall (fun e => match e with
                   | io_write _ data => 0 <= data <= 0x0f
                   | _ => True
                   end) l.

Section Run.

Context {E A : Type} `{FmEngine E} `{AdpcmEngine A} `{Constants} `{Dac}.

(** The members as the constructor leaves them, around given engines and
    surroundings. *)
Definition constructed (opl : E) (adpcm : A) (mix : list Z)
           (due : nat) (kbd io : Z) : y8950_device E A :=
  mk_device 0 0 (u8 ALL_IRQS) opl adpcm mix due [] kbd io [].

Definition bus_step (a : bus_access) (d : y8950_device E A) : y8950_device E A :=
  match a with
  | bus_read offset => snd (read offset d)
  | bus_write offset value => write offset value d
  end.

Definition bus_run (l : list bus_access) (d : y8950_device E A)
  : y8950_device E A :=
  fold_left (fun d a => bus_step a d) l d.

(** [m_io_ddr] is a nibble and [m_irq_mask] lies within [ALL_IRQS]. *)
Definition latches_ok (d : y8950_device E A) : Prop :=
  Z.land (m_io_ddr d) 0x0f = m_io_ddr d
  /\ Z.land (m_irq_mask d) ALL_IRQS = m_irq_mask d.

End Run.

End ChipRun.

(** ** Proof automation *)

(** Rewrites the drive bit of every one of the ten rows with [H], once the
    row it singles out is known. *)
Ltac settle_rows H :=
  unfold M0110A.and_of_selected, M0110A.selected_rows, M0110A.m_rows_size;
  cbn [seq filter];
  repeat match goal with
  | |- context [Z.testbit ?d (Z.of_nat ?j)] =>
      rewrite (H j) by (cbn; lia); cbn [Nat.eqb negb orb andb]
  end;
  cbn [map fold_right].


(** Solves an equation between ANDs of the same operands, bit by bit. *)
Ltac land_bits :=
  apply Z.bits_inj'; intros ? ?; rewrite ?Z.land_spec;
  repeat match goal with
         | |- context [Z.testbit ?x ?n] =>
             is_var x; destruct (Z.testbit x n)
         end;
  rewrite ?andb_false_r, ?andb_true_r; reflexivity.

(** * Properties *)

(** ** Bit-level facts *)

Lemma u8_idempotent (x : Z) : u8 (u8 x) = u8 x.
Proof.
  unfold u8. rewrite <- Z.land_assoc. reflexivity.
Qed.

Lemma u8_land_l (x y : Z) : u8 (Z.land (u8 x) y) = Z.land (u8 x) y.
Proof.
  unfold u8.
  rewrite <- !Z.land_assoc, (Z.land_comm y 0xff), !Z.land_assoc.
  rewrite <- (Z.land_assoc x 0xff 0xff). reflexivity.
Qed.

Lemma u8_lor (x y : Z) : u8 (Z.lor x y) = Z.lor (u8 x) (u8 y).
Proof.
  unfold u8. apply Z.land_lor_distr_l.
Qed.

Lemma u8_of_byte (x : Z) : is_byte x -> u8 x = x.
Proof.
  unfold u8, is_byte. intros Hx. change 0xff with (Z.ones 8).
  rewrite Z.land_ones by lia. apply Z.mod_small. exact Hx.
Qed.

Lemma BIT_testbit (x n : Z) : 0 <= n -> BIT x n = Z.b2z (Z.testbit x n).
Proof.
  intros Hn. unfold BIT. change 1 with (Z.ones 1) at 1.
  rewrite Z.land_ones by lia. change (2 ^ 1) with 2.
  rewrite <- Z.bit0_mod, Z.shiftr_spec by lia. reflexivity.
Qed.

Lemma BIT_zero_iff (x n : Z) :
  0 <= n -> (BIT x n =? 0) = negb (Z.testbit x n).
Proof.
  intros Hn. rewrite BIT_testbit by exact Hn.
  destruct (Z.testbit x n); reflexivity.
Qed.

Lemma land_offset_1 (offset : Z) : Z.land offset 1 = 0 \/ Z.land offset 1 = 1.
Proof.
  assert (Hmod : Z.land offset 1 = offset mod 2).
  { change 1 with (Z.ones 1). rewrite Z.land_ones by lia. reflexivity. }
  rewrite Hmod. pose proof (Z.mod_pos_bound offset 2 ltac:(lia)). lia.
Qed.

(** ** The keyboard: column read *)

Section ColumnRead.

Import M0110A.

Variable rows : nat -> Z.
Variable row_drive : Z.

(** The loop keeps a byte in [result] and ANDs into it every row whose
    drive bit is clear. *)
Lemma bus_r_loop_fold (todo i : nat) (result : Z) :
  u8 result = result ->
  bus_r_loop rows row_drive todo i result =
  Z.land result
    (fold_right Z.land 0xff
       (map rows
          (filter (fun i => negb (Z.testbit row_drive (Z.of_nat i)))
                  (seq i todo)))).
Proof.
  revert i result. induction todo as [|todo IH]; intros i result Hres.
  - simpl. exact (eq_sym Hres).
  - cbn [bus_r_loop seq filter]. rewrite BIT_zero_iff by lia.
    destruct (Z.testbit row_drive (Z.of_nat i)); cbn [negb].
    + apply IH. exact Hres.
    + assert (Hr : u8 (Z.land result (rows i)) = Z.land result (rows i)).
      { rewrite <- Hres. apply u8_land_l. }
      rewrite IH by apply u8_idempotent.
      cbn [map fold_right]. rewrite Hr, Z.land_assoc. reflexivity.
Qed.

Lemma bus_r_loop_and_of_selected :
  bus_r_loop rows row_drive m_rows_size 0 0xff = and_of_selected rows row_drive.
Proof.
  rewrite bus_r_loop_fold by reflexivity.
  unfold and_of_selected, selected_rows.
  set (l := map rows _).
  assert (Hb : u8 (fold_right Z.land 0xff l) = fold_right Z.land 0xff l).
  { induction l as [|x l IHl]; [reflexivity|].
    cbn [fold_right]. rewrite <- IHl at 2. unfold u8.
    rewrite Z.land_assoc. reflexivity. }
  rewrite <- Hb at 2. unfold u8. apply Z.land_comm.
Qed.

End ColumnRead.

(** C5: [bus_r] returns the AND of exactly the rows whose drive bit is
    clear and leaves the device as it was; with no row selected the byte is
    0xFF, with one row selected it is that row's snapshot, with two rows
    selected it is the AND of the two snapshots. *)
Theorem bus_r_and_of_selected_rows :
  forall (rows : nat -> Z) (k : M0110A.m0110a_device),
    M0110A.bus_r rows k
      = (M0110A.and_of_selected rows (M0110A.m_row_drive k), k)
    /\ ((forall j, (j < 10)%nat ->
           Z.testbit (M0110A.m_row_drive k) (Z.of_nat j) = true) ->
        fst (M0110A.bus_r rows k) = 0xff)
    /\ (forall i, (i < 10)%nat -> is_byte (rows i) ->
        (forall j, (j < 10)%nat ->
           Z.testbit (M0110A.m_row_drive k) (Z.of_nat j) = negb (Nat.eqb j i)) ->
        fst (M0110A.bus_r rows k) = rows i)
    /\ (forall i j, (i < 10)%nat -> (j < 10)%nat -> i <> j ->
        is_byte (rows i) -> is_byte (rows j) ->
        (forall l, (l < 10)%nat ->
           Z.testbit (M0110A.m_row_drive k) (Z.of_nat l)
             = negb (Nat.eqb l i || Nat.eqb l j)) ->
        fst (M0110A.bus_r rows k) = Z.land (rows i) (rows j)).
Proof.
  intros rows k.
  assert (Heq : M0110A.bus_r rows k
                = (M0110A.and_of_selected rows (M0110A.m_row_drive k), k)).
  { unfold M0110A.bus_r. rewrite bus_r_loop_and_of_selected. reflexivity. }
  split; [exact Heq|]. rewrite Heq. cbn [fst].
  split; [|split].
  - intros Hall.
    assert (H : forall j, (j < 10)%nat ->
              Z.testbit (M0110A.m_row_drive k) (Z.of_nat j) = negb false).
    { intros j Hj. rewrite Hall by exact Hj. reflexivity. }
    settle_rows H. reflexivity.
  - intros i Hi Hbyte Hone.
    do 10 (destruct i as [|i];
           [settle_rows Hone; apply (u8_of_byte _ Hbyte)|]).
    lia.
  - intros i j Hi Hj Hij Hbi Hbj Htwo.
    assert (Hand : forall x y, is_byte x ->
              Z.land x (Z.land y 0xff) = Z.land x y).
    { intros x y Hx. rewrite (Z.land_comm y), Z.land_assoc.
      fold (u8 x). rewrite (u8_of_byte _ Hx). reflexivity. }
    do 10 (destruct i as [|i];
           [do 10 (destruct j as [|j];
                   [try (exfalso; apply Hij; reflexivity);
                    settle_rows Htwo;
                    rewrite ?(Hand _ _ Hbi), ?(Hand _ _ Hbj);
                    try reflexivity; apply Z.land_comm|]);
            lia|]).
    lia.
Qed.

Lemma bus_r_and_of_selected_rows_witness :
  fst (M0110A.bus_r (fun i => 0xf0 + Z.of_nat i)
         (M0110A.set_row_drive 0x03fb M0110A.device_start)) = 0xf2.
Proof.
  apply (proj1 (proj2 (proj2
           (bus_r_and_of_selected_rows
              (fun i => 0xf0 + Z.of_nat i)
              (M0110A.set_row_drive 0x03fb M0110A.device_start)))) 2%nat).
  - lia.
  - unfold is_byte. simpl. lia.
  - intros j Hj. do 10 (destruct j as [|j]; [reflexivity|]). lia.
Defined.

(** ** The keyboard: port writes and the two-wire link *)

(** C6: [p2_w] pushes a clock notification exactly when bit 6 of the byte
    differs from [m_host_clock_out] and a data notification exactly when
    bit 7 differs from [m_host_data_out]; the clock notification comes
    first, and nothing is pushed when neither bit changes.  Both members
    end up at the requested levels. *)
Theorem p2_w_edge_notifications :
  forall (data : Z) (k : M0110A.m0110a_device),
    M0110A.host_link (M0110A.p2_w data k)
      = M0110A.host_link k
        ++ (if BIT data 6 =? M0110A.m_host_clock_out k then []
            else [M0110A.write_clock (BIT data 6)])
        ++ (if BIT data 7 =? M0110A.m_host_data_out k then []
            else [M0110A.write_data (BIT data 7)])
    /\ M0110A.m_host_clock_out (M0110A.p2_w data k) = BIT data 6
    /\ M0110A.m_host_data_out (M0110A.p2_w data k) = BIT data 7.
Proof.
  intros data k. unfold M0110A.p2_w.
  cbn [M0110A.set_row_drive M0110A.m_host_clock_out M0110A.m_host_data_out].
  destruct (BIT data 6 =? M0110A.m_host_clock_out k) eqn:Hclk;
    destruct (BIT data 7 =? M0110A.m_host_data_out k) eqn:Hdat;
    cbn; rewrite ?Hdat; cbn;
    rewrite ?app_nil_r, <- ?app_assoc; cbn;
    apply Z.eqb_eq in Hclk || clear Hclk;
    apply Z.eqb_eq in Hdat || clear Hdat;
    repeat split; congruence.
Qed.

Lemma p2_w_row_drive (data : Z) (k : M0110A.m0110a_device) :
  M0110A.m_row_drive (M0110A.p2_w data k)
  = u16 (Z.lor (Z.land (M0110A.m_row_drive k) 0x00ff)
               (Z.shiftl (u16 (Z.land data 0x03)) 8)).
Proof.
  unfold M0110A.p2_w. cbv zeta.
  repeat match goal with
         | |- context [if ?c then _ else _] => destruct c
         end; reflexivity.
Qed.

(** C10: [p1_w] leaves bits 8-9 of [m_row_drive] (every bit from 8 up when
    the mask is a 10-bit value), both output lines, the input line and the
    link untouched, and loads bits 0-7 from the byte; [p2_w] leaves bits
    0-7 of [m_row_drive] untouched. *)
Theorem port_writes_frame :
  forall (data : Z) (k : M0110A.m0110a_device),
    is_byte data ->
    (forall i, 8 <= i < 10 ->
       Z.testbit (M0110A.m_row_drive (M0110A.p1_w data k)) i
         = Z.testbit (M0110A.m_row_drive k) i)
    /\ (0 <= M0110A.m_row_drive k < 1024 ->
        forall i, 8 <= i ->
          Z.testbit (M0110A.m_row_drive (M0110A.p1_w data k)) i
            = Z.testbit (M0110A.m_row_drive k) i)
    /\ (forall i, 0 <= i < 8 ->
          Z.testbit (M0110A.m_row_drive (M0110A.p1_w data k)) i
            = Z.testbit data i)
    /\ M0110A.m_host_clock_out (M0110A.p1_w data k) = M0110A.m_host_clock_out k
    /\ M0110A.m_host_data_out (M0110A.p1_w data k) = M0110A.m_host_data_out k
    /\ M0110A.m_host_data_in (M0110A.p1_w data k) = M0110A.m_host_data_in k
    /\ M0110A.host_link (M0110A.p1_w data k) = M0110A.host_link k
    /\ M0110A.scheduler (M0110A.p1_w data k) = M0110A.scheduler k
    /\ (forall i, 0 <= i < 8 ->
          Z.testbit (M0110A.m_row_drive (M0110A.p2_w data k)) i
            = Z.testbit (M0110A.m_row_drive k) i).
Proof.
  intros data k Hdata.
  assert (Hhigh : forall i, 8 <= i -> Z.testbit data i = false).
  { intros i Hi. destruct (Z.eq_dec data 0) as [->|Hnz].
    - apply Z.testbit_0_l.
    - apply Z.bits_above_log2; [unfold is_byte in Hdata; lia|].
      apply Z.log2_lt_pow2; [unfold is_byte in Hdata; lia|].
      apply Z.lt_le_trans with (2 ^ 8); [exact (proj2 Hdata)|].
      apply Z.pow_le_mono_r; lia. }
  assert (Hp1 : forall i, 0 <= i ->
            Z.testbit (M0110A.m_row_drive (M0110A.p1_w data k)) i
            = Z.testbit (Z.ones 16) i
              && ((Z.testbit (M0110A.m_row_drive k) i && Z.testbit 0x0300 i)
                  || (Z.testbit data i && Z.testbit (Z.ones 16) i))).
  { intros i Hi. unfold M0110A.p1_w, u16. cbn [M0110A.set_row_drive M0110A.m_row_drive].
    change 0xffff with (Z.ones 16).
    rewrite Z.land_spec, Z.lor_spec, !Z.land_spec. apply andb_comm. }
  assert (Hones : forall i, 0 <= i < 16 -> Z.testbit (Z.ones 16) i = true).
  { intros i Hi. apply Z.ones_spec_low. lia. }
  assert (H300 : forall i, 0 <= i ->
            Z.testbit 0x0300 i = (8 <=? i) && (i <? 10)).
  { intros i Hi.
    destruct (Z_lt_le_dec i 10) as [Hlt|Hge].
    - assert (Hc : i = 0 \/ i = 1 \/ i = 2 \/ i = 3 \/ i = 4 \/ i = 5 \/ i = 6
                   \/ i = 7 \/ i = 8 \/ i = 9) by lia.
      repeat (destruct Hc as [->|Hc]; [reflexivity|]). subst i. reflexivity.
    - replace (i <? 10) with false by (symmetry; apply Z.ltb_ge; lia).
      rewrite andb_false_r.
      apply Z.bits_above_log2; [lia|]. change (Z.log2 0x0300) with 9. lia. }
  split; [|split; [|split]].
  - intros i Hi. rewrite Hp1, H300, Hones, Hhigh by lia.
    replace (8 <=? i) with true by (symmetry; apply Z.leb_le; lia).
    replace (i <? 10) with true by (symmetry; apply Z.ltb_lt; lia).
    cbn. rewrite andb_true_r, orb_false_r. reflexivity.
  - intros Hten i Hi. rewrite Hp1, H300, Hhigh by lia.
    replace (8 <=? i) with true by (symmetry; apply Z.leb_le; lia).
    cbn [andb orb]. rewrite orb_false_r.
    destruct (Z_lt_le_dec i 10) as [Hlt|Hge].
    + rewrite Hones by lia.
      replace (i <? 10) with true by (symmetry; apply Z.ltb_lt; lia).
      cbn. apply andb_true_r.
    + replace (i <? 10) with false by (symmetry; apply Z.ltb_ge; lia).
      rewrite andb_false_r, andb_false_r. symmetry.
      destruct (Z.eq_dec (M0110A.m_row_drive k) 0) as [->|Hnz].
      * apply Z.testbit_0_l.
      * apply Z.bits_above_log2; [lia|].
        apply Z.lt_le_trans with 10; [|exact Hge].
        apply Z.log2_lt_pow2; [lia|]. change (2 ^ 10) with 1024. lia.
  - intros i Hi. rewrite Hp1, H300, Hones by lia.
    replace (8 <=? i) with false by (symmetry; apply Z.leb_gt; lia).
    cbn. rewrite andb_false_r, andb_true_r. reflexivity.
  - unfold M0110A.p1_w. cbn. repeat split; try reflexivity.
    intros i Hi.
    rewrite p2_w_row_drive. unfold u16. change 0xffff with (Z.ones 16).
    change 0x00ff with (Z.ones 8).
    rewrite Z.land_spec, Z.lor_spec, Z.land_spec, Z.shiftl_spec by lia.
    rewrite (Z.testbit_neg_r _ (i - 8)) by lia.
    rewrite !Z.ones_spec_low by lia.
    rewrite orb_false_r, !andb_true_r. reflexivity.
Qed.

Lemma port_writes_frame_witness :
  is_byte 0x5a
  /\ Z.testbit (M0110A.m_row_drive (M0110A.p1_w 0x5a M0110A.device_start)) 9
     = Z.testbit (M0110A.m_row_drive M0110A.device_start) 9.
Proof.
  assert (Hb : is_byte 0x5a) by (unfold is_byte; lia).
  split; [exact Hb|].
  apply (proj1 (port_writes_frame 0x5a M0110A.device_start Hb) 9). lia.
Defined.

(** ** The keyboard: host edges through the scheduler *)

Lemma update_host_data_frame (p : Z) (k : M0110A.m0110a_device) :
  M0110A.scheduler (M0110A.update_host_data p k) = M0110A.scheduler k
  /\ M0110A.host_link (M0110A.update_host_data p k) = M0110A.host_link k.
Proof.
  unfold M0110A.update_host_data.
  destruct (Bool.eqb _ _); split; reflexivity.
Qed.

Lemma update_host_data_level (p : Z) (k1 k2 : M0110A.m0110a_device) :
  M0110A.m_host_data_in k1 = M0110A.m_host_data_in k2 ->
  M0110A.m_host_data_in (M0110A.update_host_data p k1)
  = M0110A.m_host_data_in (M0110A.update_host_data p k2).
Proof.
  intros Heq. unfold M0110A.update_host_data. rewrite Heq.
  destruct (Bool.eqb _ _); [exact Heq|reflexivity].
Qed.

Lemma apply_edges_level (l : list Z) (k1 k2 : M0110A.m0110a_device) :
  M0110A.m_host_data_in k1 = M0110A.m_host_data_in k2 ->
  M0110A.m_host_data_in (M0110A.apply_edges l k1)
  = M0110A.m_host_data_in (M0110A.apply_edges l k2).
Proof.
  revert k1 k2. induction l as [|p l IH]; intros k1 k2 Heq.
  - exact Heq.
  - cbn. apply IH, update_host_data_level, Heq.
Qed.

(** Serving [n] queued callbacks applies the first [n] of them, oldest
    first, and leaves the others queued in their order. *)
Lemma serve_prefix (n : nat) (k : M0110A.m0110a_device) :
  M0110A.m_host_data_in (M0110A.serve n k)
  = M0110A.m_host_data_in
      (M0110A.apply_edges (firstn n (M0110A.scheduler k)) k)
  /\ M0110A.scheduler (M0110A.serve n k) = skipn n (M0110A.scheduler k).
Proof.
  revert k. induction n as [|n IH]; intros k.
  - split; reflexivity.
  - cbn [M0110A.serve]. destruct (IH (M0110A.serve_one k)) as [IHl IHq].
    rewrite IHl, IHq. unfold M0110A.serve_one.
    destruct (M0110A.scheduler k) as [|p q] eqn:Hq.
    + rewrite Hq. destruct n; split; reflexivity.
    + destruct (update_host_data_frame p (M0110A.set_scheduler q k)) as [Hs _].
      rewrite Hs. cbn [M0110A.set_scheduler M0110A.scheduler firstn skipn].
      split; [|reflexivity].
      cbn [M0110A.apply_edges fold_left].
      apply apply_edges_level, update_host_data_level. reflexivity.
Qed.

Lemma update_host_data_truth (p : Z) (k : M0110A.m0110a_device) :
  to_bool (M0110A.m_host_data_in (M0110A.update_host_data p k)) = to_bool p.
Proof.
  unfold M0110A.update_host_data.
  destruct (Bool.eqb (to_bool p) (to_bool (M0110A.m_host_data_in k))) eqn:Heq.
  - symmetry. apply eqb_prop. exact Heq.
  - cbn [M0110A.set_host_data_in M0110A.m_host_data_in].
    destruct (to_bool p); reflexivity.
Qed.

Lemma update_host_data_bit (p : Z) (k : M0110A.m0110a_device) :
  M0110A.m_host_data_in k = 0 \/ M0110A.m_host_data_in k = 1 ->
  M0110A.m_host_data_in (M0110A.update_host_data p k)
  = (if p =? 0 then 0 else 1).
Proof.
  intros Hbit. unfold M0110A.update_host_data, to_bool.
  destruct (Z.eqb_spec p 0) as [Hp|Hp]; destruct Hbit as [Hk|Hk];
    rewrite Hk; cbn [Z.eqb negb Bool.eqb M0110A.set_host_data_in
                     M0110A.m_host_data_in];
    try reflexivity; exact Hk.
Qed.

Lemma apply_edges_bit (l : list Z) (k : M0110A.m0110a_device) :
  M0110A.m_host_data_in k = 0 \/ M0110A.m_host_data_in k = 1 ->
  M0110A.m_host_data_in (M0110A.apply_edges l k) = 0
  \/ M0110A.m_host_data_in (M0110A.apply_edges l k) = 1.
Proof.
  revert k. induction l as [|p l IH]; intros k Hbit; [exact Hbit|].
  cbn. apply IH. rewrite (update_host_data_bit p k Hbit).
  destruct (p =? 0); auto.
Qed.

Lemma apply_edges_snoc (l : list Z) (p : Z) (k : M0110A.m0110a_device) :
  M0110A.apply_edges (l ++ [p]) k
  = M0110A.update_host_data p (M0110A.apply_edges l k).
Proof.
  unfold M0110A.apply_edges. rewrite fold_left_app. reflexivity.
Qed.

(** C7: [data_w] changes neither [m_host_data_in] nor what [host_data_r]
    reports: the edge is only queued.  Two edges [a] then [b] are queued
    behind what was already waiting, in that order; after [n] callbacks
    have been served the line holds the result of the first [n] queued
    edges applied oldest first; while only the callbacks queued before
    them have been served the line is what it would be had neither been
    submitted, and until [a] has been served it is what it would be had
    [b] never been submitted.  Once [a] has been served the line is at the
    level of [a] (true exactly when [a] is non-zero), and the
    synchronization point ends with the line at the level of [b]; when the
    member held a line level to begin with, these are 1 or 0 in
    [m_host_data_in] and the inverse in [host_data_r]. *)
Theorem data_w_deferred_in_order :
  forall (a b : Z) (k : M0110A.m0110a_device),
    let queued := length (M0110A.scheduler k) in
    let k2 := M0110A.data_w b (M0110A.data_w a k) in
    M0110A.m_host_data_in (M0110A.data_w a k) = M0110A.m_host_data_in k
    /\ M0110A.host_data_r (M0110A.data_w a k) = M0110A.host_data_r k
    /\ M0110A.scheduler k2 = M0110A.scheduler k ++ [a; b]
    /\ (forall n,
          M0110A.m_host_data_in (M0110A.serve n k2)
          = M0110A.m_host_data_in
              (M0110A.apply_edges
                 (firstn n (M0110A.scheduler k ++ [a; b])) k))
    /\ (forall n, (n <= queued)%nat ->
          M0110A.m_host_data_in (M0110A.serve n k2)
          = M0110A.m_host_data_in (M0110A.serve n k))
    /\ (forall n, (n <= queued + 1)%nat ->
          M0110A.host_data_r (M0110A.serve n k2)
          = M0110A.host_data_r (M0110A.serve n (M0110A.data_w a k)))
    /\ M0110A.m_host_data_in (M0110A.synchronization_point k2)
       = M0110A.m_host_data_in
           (M0110A.update_host_data b
              (M0110A.update_host_data a
                 (M0110A.apply_edges (M0110A.scheduler k) k)))
    /\ to_bool (M0110A.m_host_data_in (M0110A.serve (queued + 1) k2))
       = to_bool a
    /\ to_bool (M0110A.m_host_data_in (M0110A.synchronization_point k2))
       = to_bool b
    /\ (M0110A.m_host_data_in k = 0 \/ M0110A.m_host_data_in k = 1 ->
        M0110A.m_host_data_in (M0110A.serve (queued + 1) k2)
          = (if a =? 0 then 0 else 1)
        /\ M0110A.host_data_r (M0110A.serve (queued + 1) k2)
           = (if a =? 0 then 1 else 0)
        /\ M0110A.m_host_data_in (M0110A.synchronization_point k2)
           = (if b =? 0 then 0 else 1)
        /\ M0110A.host_data_r (M0110A.synchronization_point k2)
           = (if b =? 0 then 1 else 0)).
Proof.
  intros a b k. cbv zeta.
  set (q := M0110A.scheduler k).
  assert (Hq2 : M0110A.scheduler (M0110A.data_w b (M0110A.data_w a k))
                = q ++ [a; b]).
  { cbn. rewrite <- app_assoc. reflexivity. }
  assert (Hq1 : M0110A.scheduler (M0110A.data_w a k) = q ++ [a])
    by reflexivity.
  assert (Hserve2 : forall n,
            M0110A.m_host_data_in
              (M0110A.serve n (M0110A.data_w b (M0110A.data_w a k)))
            = M0110A.m_host_data_in
                (M0110A.apply_edges (firstn n (q ++ [a; b])) k)).
  { intros n. rewrite (proj1 (serve_prefix n _)), Hq2.
    apply apply_edges_level. reflexivity. }
  assert (Hfirst : firstn (length q + 1) (q ++ [a; b]) = q ++ [a]).
  { rewrite firstn_app, firstn_all2 by lia.
    replace (length q + 1 - length q)%nat with 1%nat by lia. reflexivity. }
  assert (Hmid : M0110A.m_host_data_in
                   (M0110A.serve (length q + 1)
                      (M0110A.data_w b (M0110A.data_w a k)))
                 = M0110A.m_host_data_in
                     (M0110A.update_host_data a (M0110A.apply_edges q k))).
  { rewrite Hserve2, Hfirst, apply_edges_snoc. reflexivity. }
  assert (Hend : M0110A.m_host_data_in
                   (M0110A.synchronization_point
                      (M0110A.data_w b (M0110A.data_w a k)))
                 = M0110A.m_host_data_in
                     (M0110A.update_host_data b
                        (M0110A.update_host_data a
                           (M0110A.apply_edges q k)))).
  { unfold M0110A.synchronization_point. rewrite Hserve2, Hq2.
    rewrite firstn_all. unfold M0110A.apply_edges.
    rewrite fold_left_app. reflexivity. }
  split; [reflexivity|]. split; [reflexivity|]. split; [exact Hq2|].
  split; [exact Hserve2|]. split; [|split; [|split; [exact Hend|]]].
  - intros n Hn. rewrite Hserve2, (proj1 (serve_prefix n k)). fold q.
    rewrite firstn_app.
    replace (n - length q)%nat with O by lia.
    cbn [firstn]. rewrite app_nil_r. reflexivity.
  - intros n Hn. unfold M0110A.host_data_r. f_equal.
    rewrite Hserve2, (proj1 (serve_prefix n _)), Hq1.
    replace (q ++ [a; b]) with ((q ++ [a]) ++ [b])
      by (rewrite <- app_assoc; reflexivity).
    rewrite firstn_app.
    replace (n - length (q ++ [a]))%nat with O
      by (rewrite length_app; cbn; lia).
    cbn [firstn]. rewrite app_nil_r.
    apply apply_edges_level. reflexivity.
  - split; [rewrite Hmid; apply update_host_data_truth|].
    split; [rewrite Hend; apply update_host_data_truth|].
    intros Hbit. pose proof (apply_edges_bit q k Hbit) as Hbq.
    pose proof (update_host_data_bit a _ Hbq) as Ha.
    assert (Hba : M0110A.m_host_data_in
                    (M0110A.update_host_data a (M0110A.apply_edges q k)) = 0
                  \/ M0110A.m_host_data_in
                       (M0110A.update_host_data a (M0110A.apply_edges q k)) = 1).
    { rewrite Ha. destruct (a =? 0); auto. }
    pose proof (update_host_data_bit b _ Hba) as Hb.
    unfold M0110A.host_data_r. rewrite Hmid, Hend, Ha, Hb.
    destruct (a =? 0), (b =? 0); repeat split.
Qed.

Lemma data_w_deferred_in_order_witness :
  M0110A.host_data_r
    (M0110A.serve 1 (M0110A.data_w 1 (M0110A.data_w 0 M0110A.device_start)))
  = 1
  /\ M0110A.host_data_r
       (M0110A.synchronization_point
          (M0110A.data_w 1 (M0110A.data_w 0 M0110A.device_start)))
     = 0.
Proof.
  assert (Hbit : M0110A.m_host_data_in M0110A.device_start = 0
                 \/ M0110A.m_host_data_in M0110A.device_start = 1)
    by (right; reflexivity).
  pose proof (proj2 (proj2 (proj2 (proj2 (proj2 (proj2 (proj2 (proj2 (proj2
                (data_w_deferred_in_order 0 1 M0110A.device_start)))))))))
                Hbit) as (_ & Hmid & _ & Hend).
  split; [exact Hmid|exact Hend].
Defined.

(** ** The sound chip, for any pair of engines *)

Section Chip.

Import Y8950.

Context {E A : Type} `{FmEngine E} `{AdpcmEngine A} `{Constants} `{Dac}.

Lemma u8_land_byte_r (x m : Z) : is_byte m -> u8 (Z.land x m) = Z.land x m.
Proof.
  intros Hm. rewrite Z.land_comm, <- (u8_of_byte m Hm). apply u8_land_l.
Qed.

Lemma u8_land_byte_l (x m : Z) : is_byte x -> u8 (Z.land x m) = Z.land x m.
Proof.
  intros Hx. rewrite <- (u8_of_byte x Hx). apply u8_land_l.
Qed.

(** The three conditional ORs of [combine_status] build [raw_status]. *)
Lemma combine_status_raw (d : y8950_device E A) :
  fst (combine_status d) = Z.land (raw_status d) (m_irq_mask d).
Proof.
  unfold combine_status, raw_status, adpcm_flag. cbn [fst].
  destruct (Z.land (u8 (adpcm_status 0 (m_adpcm_b d))) STATUS_EOS =? 0);
    destruct (Z.land (u8 (adpcm_status 0 (m_adpcm_b d))) STATUS_BRDY =? 0);
    destruct (Z.land (u8 (adpcm_status 0 (m_adpcm_b d))) STATUS_PLAYING =? 0);
    rewrite ?Z.lor_0_r, ?u8_lor, ?u8_idempotent, <- ?u8_lor;
    apply u8_land_l.
Qed.

Lemma combine_status_device (d : y8950_device E A) :
  snd (combine_status d)
  = set_opl (fm_set_reset_status (fst (combine_status d))
                                 (u8 (Z.lnot (fst (combine_status d))))
                                 (m_opl d)) d.
Proof. reflexivity. Qed.

(** C1: a read of the status port (any even offset) returns the OR of the
    FM engine's status with the ADPCM-B EOS, BRDY and PLAYING flags, ANDed
    with [m_irq_mask], and hands that byte (and its complement as the bits
    to clear) to the FM engine's [set_reset_status]; nothing else in the
    device changes. *)
Theorem read_status_is_masked_combination :
  forall (offset : Z) (d : y8950_device E A),
    Z.land offset 1 = 0 ->
    let status := Z.land (raw_status d) (m_irq_mask d) in
    read offset d
    = (status,
       set_opl (fm_set_reset_status status (u8 (Z.lnot status)) (m_opl d)) d).
Proof.
  intros offset d Heven status. unfold read. rewrite Heven. cbn [Z.eqb].
  rewrite (surjective_pairing (combine_status d)).
  rewrite combine_status_device, combine_status_raw. reflexivity.
Qed.

(** *** The stream *)

Lemma sample_tick_out (d : y8950_device E A) :
  stream_out (sample_tick d)
  = stream_out d
    ++ [put_int_clamp
          (ymfm_roundtrip_fp
             (fm_output (fm_clock 0x1ff (m_opl d)) 0 1 32767 0x1ff)) 32768].
Proof. reflexivity. Qed.

Lemma sound_stream_update_frame (n : nat) (d : y8950_device E A) :
  m_address (sound_stream_update n d) = m_address d
  /\ m_io_ddr (sound_stream_update n d) = m_io_ddr d
  /\ m_irq_mask (sound_stream_update n d) = m_irq_mask d
  /\ bus_out (sound_stream_update n d) = bus_out d.
Proof.
  revert d. induction n as [|n IH]; intros d; [repeat split|].
  cbn [sound_stream_update].
  destruct (IH (sample_tick d)) as (Ha & Hi & Hm & Hb).
  rewrite Ha, Hi, Hm, Hb. repeat split.
Qed.

Lemma sound_stream_update_out (n : nat) (d : y8950_device E A) :
  exists fresh,
    stream_out (sound_stream_update n d) = stream_out d ++ fresh
    /\ length fresh = n.
Proof.
  revert d. induction n as [|n IH]; intros d.
  - exists []. rewrite app_nil_r. split; reflexivity.
  - cbn [sound_stream_update].
    destruct (IH (sample_tick d)) as (fresh & Hout & Hlen).
    rewrite sample_tick_out, <- app_assoc in Hout.
    eexists. split; [exact Hout|]. cbn. rewrite Hlen. reflexivity.
Qed.

Lemma stream_update_frame (d : y8950_device E A) :
  m_address (stream_update d) = m_address d
  /\ m_io_ddr (stream_update d) = m_io_ddr d
  /\ m_irq_mask (stream_update d) = m_irq_mask d
  /\ bus_out (stream_update d) = bus_out d.
Proof.
  unfold stream_update. cbn.
  apply sound_stream_update_frame.
Qed.

Lemma write_data_stream (value : Z) (d : y8950_device E A) :
  stream_out (write_data value d) = stream_out d
  /\ stream_due (write_data value d) = stream_due d.
Proof.
  unfold write_data.
  repeat match goal with
         | |- context [if ?c then _ else _] => destruct c
         end; split; reflexivity.
Qed.

Lemma sound_stream_update_set_address (n : nat) (a : Z) (d : y8950_device E A) :
  sound_stream_update n (set_address a d)
  = set_address a (sound_stream_update n d).
Proof.
  revert d. induction n as [|n IH]; intros d; [reflexivity|].
  cbn [sound_stream_update]. rewrite <- IH. reflexivity.
Qed.

(** C8: a write to the data port (any odd offset) first brings the stream
    up to the current instant from the device as it stands, and only then
    dispatches the byte.  The samples written by the call are those of the
    flush: the samples already out stay as a prefix, one sample per tick
    owed is added, nothing is owed afterwards, and neither the byte nor
    its destination has any influence on them. *)
Theorem write_data_port_flushes_first :
  forall (offset value : Z) (d : y8950_device E A),
    Z.land offset 1 = 1 ->
    write offset value d = write_data value (stream_update d)
    /\ stream_out (write offset value d)
       = stream_out (sound_stream_update (stream_due d) d)
    /\ (exists fresh,
          stream_out (write offset value d) = stream_out d ++ fresh
          /\ length fresh = stream_due d)
    /\ stream_due (write offset value d) = O
    /\ (forall value' address',
          stream_out (write offset value' (set_address address' d))
          = stream_out (write offset value d)).
Proof.
  intros offset value d Hodd.
  assert (Hw : forall v x, write offset v x = write_data v (stream_update x)).
  { intros v x. unfold write. rewrite Hodd. reflexivity. }
  assert (Hout : forall v x,
            stream_out (write offset v x)
            = stream_out (sound_stream_update (stream_due x) x)).
  { intros v x. rewrite Hw, (proj1 (write_data_stream _ _)). reflexivity. }
  split; [apply Hw|]. split; [apply Hout|]. split; [|split].
  - rewrite Hout. apply sound_stream_update_out.
  - rewrite Hw, (proj2 (write_data_stream _ _)). reflexivity.
  - intros value' address'. rewrite !Hout.
    cbn [set_address stream_due].
    rewrite sound_stream_update_set_address. reflexivity.
Qed.

(** *** The routing table of the data port *)

Lemma is_adpcm_b_register_In (a : Z) :
  is_adpcm_b_register a = true <-> In a adpcm_b_registers.
Proof.
  unfold is_adpcm_b_register. rewrite existsb_exists. split.
  - intros (x & Hin & Heq). apply Z.eqb_eq in Heq. subst x. exact Hin.
  - intros Hin. exists a. split; [exact Hin|apply Z.eqb_refl].
Qed.

Lemma adpcm_b_register_regnum (a : Z) :
  In a adpcm_b_registers -> u32 (a - 0x07) = a - 0x07.
Proof.
  intros Hin. unfold adpcm_b_registers in Hin. cbn [In] in Hin.
  repeat (destruct Hin as [<-|Hin]; [reflexivity|]). contradiction.
Qed.

(** C2, as the table stands in [write]: a byte written to the data port
    goes, after the flush, to
    - 0x04: [m_irq_mask] (the complement restricted to [ALL_IRQS]), the FM
      engine's own mask, the FM engine's register 0x04, and a
      recombination of the status;
    - 0x06: the keyboard-output handler;
    - 0x08: its low nibble to ADPCM-B register 1, its bits 7-6 to FM
      register 8;
    - 0x07, 0x0a-0x12, 0x15-0x17: the ADPCM-B register 7 below the address;
    - 0x18: [m_io_ddr], low nibble only;
    - 0x19: the I/O-output handler, ANDed with [m_io_ddr];
    - any other address, 0x09 left aside: the FM engine, unchanged. *)
Theorem write_data_port_routing :
  forall (offset value : Z) (d : y8950_device E A),
    Z.land offset 1 = 1 ->
    is_byte value ->
    let d1 := stream_update d in
    let a := m_address d in
    let mask := u8 (Z.land (Z.lnot value) ALL_IRQS) in
    (a = 0x04 ->
       write offset value d
       = snd (combine_status
                (set_opl (fm_write 0x04 value
                            (fm_set_irq_mask mask (m_opl d1)))
                         (set_irq_mask mask d1)))
       /\ m_irq_mask (write offset value d) = mask)
    /\ (a = 0x06 ->
          write offset value d = emit (keyboard_write 0 value) d1)
    /\ (a = 0x08 ->
          write offset value d
          = set_opl (fm_write 0x08 (Z.land value 0xc0) (m_opl d1))
              (set_adpcm_b (adpcm_write 0x01 (Z.land value 0x0f)
                              (m_adpcm_b d1)) d1))
    /\ (In a adpcm_b_registers ->
          write offset value d
          = set_adpcm_b (adpcm_write (a - 0x07) value (m_adpcm_b d1)) d1)
    /\ (a = 0x18 ->
          write offset value d = set_io_ddr (Z.land value 0x0f) d1)
    /\ (a = 0x19 ->
          write offset value d
          = emit (io_write 0 (Z.land value (m_io_ddr d))) d1)
    /\ (~ In a [0x04; 0x06; 0x08; 0x09; 0x18; 0x19] ->
        ~ In a adpcm_b_registers ->
          write offset value d = set_opl (fm_write a value (m_opl d1)) d1).
Proof.
  intros offset value d Hodd Hbyte. cbv zeta.
  assert (Hw : write offset value d = write_data value (stream_update d)).
  { unfold write. rewrite Hodd. reflexivity. }
  destruct (stream_update_frame d) as (Ha & Hddr & _ & _).
  rewrite Hw. clear Hw. set (d1 := stream_update d) in *. clearbody d1.
  unfold write_data.
  cbn [set_opl set_irq_mask set_adpcm_b m_address m_opl m_irq_mask m_adpcm_b].
  rewrite Ha, Hddr.
  assert (H0f : u8 (Z.land value 0x0f) = Z.land value 0x0f).
  { apply u8_land_byte_r. unfold is_byte. lia. }
  assert (Hc0 : u8 (Z.land value 0xc0) = Z.land value 0xc0).
  { apply u8_land_byte_r. unfold is_byte. lia. }
  rewrite H0f, Hc0, (u8_land_byte_l _ _ Hbyte).
  refine (conj _ (conj _ (conj _ (conj _ (conj _ (conj _ _)))))).
  - intros ->. split; reflexivity.
  - intros ->. reflexivity.
  - intros ->. reflexivity.
  - intros Hin. pose proof (adpcm_b_register_regnum _ Hin) as Hreg.
    apply is_adpcm_b_register_In in Hin as Hreg_b. rewrite Hreg_b, Hreg.
    unfold adpcm_b_registers in Hin. cbn [In] in Hin.
    repeat (destruct Hin as [<-|Hin]; [reflexivity|]). contradiction.
  - intros ->. reflexivity.
  - intros ->. reflexivity.
  - intros Hother Hnot. cbn [In] in Hother.
    assert (Hreg_b : is_adpcm_b_register (m_address d) = false).
    { destruct (is_adpcm_b_register (m_address d)) eqn:Hb; [|reflexivity].
      apply is_adpcm_b_register_In in Hb. contradiction. }
    rewrite Hreg_b.
    repeat match goal with
           | |- context [?x =? ?y] =>
               destruct (Z.eqb_spec x y);
               [exfalso; apply Hother; auto 10|]
           end.
    reflexivity.
Qed.

End Chip.

(** ** The sound chip: what the offset selects *)

Section Ports.

Import Y8950.

Context {E A : Type} `{FmEngine E} `{AdpcmEngine A} `{Constants} `{Dac}.

(** Writes look at bit 0 of the offset only. *)
Lemma write_low_bit_only (offset value : Z) (d : y8950_device E A) :
  write offset value d = write (Z.land offset 1) value d.
Proof.
  unfold write.
  destruct (land_offset_1 offset) as [-> | ->]; reflexivity.
Qed.

(** So do reads of the status port. *)
Lemma read_status_low_bit_only (offset : Z) (d : y8950_device E A) :
  Z.land offset 1 = 0 -> read offset d = read 0 d.
Proof.
  intros Heven. unfold read. rewrite Heven. reflexivity.
Qed.

(** A data-port read at address 0x09 or 0x1a asks the ADPCM-B engine for
    the register 7 below the bus offset, whatever the address latch. *)
Lemma read_data_adpcm_regnum (offset : Z) (d : y8950_device E A) :
  Z.land offset 1 = 1 ->
  m_address d = 0x09 \/ m_address d = 0x1a ->
  read offset d
  = (u8 (fst (adpcm_read (u32 (offset - 0x07)) (m_adpcm_b d))),
     set_adpcm_b (snd (adpcm_read (u32 (offset - 0x07)) (m_adpcm_b d))) d).
Proof.
  intros Hodd Haddr. unfold read. rewrite Hodd. cbn [Z.eqb].
  destruct (adpcm_read (u32 (offset - 0x07)) (m_adpcm_b d)) as [r a].
  destruct Haddr as [-> | ->]; reflexivity.
Qed.

(** A data-port read at an address outside the table answers 0xFF and
    only leaves a diagnostic. *)
Lemma read_data_unexpected (offset : Z) (d : y8950_device E A) :
  Z.land offset 1 = 1 ->
  ~ In (m_address d) [0x05; 0x09; 0x1a; 0x19] ->
  read offset d = (0xff, emit (logerror (Z.land offset 3)) d).
Proof.
  intros Hodd Hother. unfold read. rewrite Hodd. cbn [Z.eqb In] in *.
  repeat match goal with
         | |- context [?x =? ?y] =>
             destruct (Z.eqb_spec x y);
             [exfalso; apply Hother; auto 10|]
         end.
  reflexivity.
Qed.

End Ports.

(** ** The sound chip on the test bench *)

Section OnTheBench.

Import Y8950 Bench.

Lemma read_status_is_masked_combination_witness :
  read 2 (flagged 0xc7 0x07)
  = (0x58,
     set_opl (fm_set_reset_status 0x58 0xa7 (mk_fm 0xc7 0 []))
             (flagged 0xc7 0x07)).
Proof.
  exact (read_status_is_masked_combination 2 (flagged 0xc7 0x07) eq_refl).
Defined.

Lemma write_data_port_flushes_first_witness :
  stream_out (write 1 0x55 (playing 600 0 3))
  = stream_out (sound_stream_update 3 (playing 600 0 3)).
Proof.
  apply (proj1 (proj2
           (write_data_port_flushes_first 1 0x55 (playing 600 0 3) eq_refl))).
Defined.

Lemma write_data_port_routing_witness :
  write 1 0x55 (latched 0x20)
  = set_opl (fm_write 0x20 0x55 (m_opl (stream_update (latched 0x20))))
            (stream_update (latched 0x20)).
Proof.
  assert (Hbyte : is_byte 0x55) by (unfold is_byte; lia).
  apply (proj2 (proj2 (proj2 (proj2 (proj2 (proj2
           (write_data_port_routing 1 0x55 (latched 0x20)
              eq_refl Hbyte))))))).
  - simpl. lia.
  - simpl. lia.
Defined.

(** C2, as worded: no single range of addresses accounts for what reaches
    the ADPCM-B engine.  0x12 and 0x15 are sent to it, 0x13 between them
    is sent to the FM engine. *)
Lemma adpcm_b_addresses_not_contiguous :
  ~ exists lo hi, contiguous_adpcm_range lo hi.
Proof.
  intros (lo & hi & Hrange).
  assert (Hb : forall x, 0 <= x < 256 -> is_byte x) by (intros x Hx; exact Hx).
  assert (Hspecial : forall a, 0x09 < a < 0x18 ->
            ~ In a [0x04; 0x06; 0x08; 0x18; 0x19]).
  { intros a Ha Hin. simpl in Hin. intuition lia. }
  destruct (Hrange 0x12 0 (Hb 0x12 ltac:(lia)) (Hb 0 ltac:(lia))
              (Hspecial 0x12 ltac:(lia))) as [_ Hout12].
  destruct (Hrange 0x15 0 (Hb 0x15 ltac:(lia)) (Hb 0 ltac:(lia))
              (Hspecial 0x15 ltac:(lia))) as [_ Hout15].
  destruct (Hrange 0x13 0 (Hb 0x13 ltac:(lia)) (Hb 0 ltac:(lia))
              (Hspecial 0x13 ltac:(lia))) as [Hin13 _].
  assert (H12 : lo <= 0x12 <= hi).
  { destruct (Z_le_dec lo 0x12); destruct (Z_le_dec 0x12 hi);
      try lia; (assert (Hno : ~ lo <= 0x12 <= hi) by lia);
      specialize (Hout12 Hno); vm_compute in Hout12; discriminate. }
  assert (H15 : lo <= 0x15 <= hi).
  { destruct (Z_le_dec lo 0x15); destruct (Z_le_dec 0x15 hi);
      try lia; (assert (Hno : ~ lo <= 0x15 <= hi) by lia);
      specialize (Hout15 Hno); vm_compute in Hout15; discriminate. }
  assert (H13 : lo <= 0x13 <= hi) by lia.
  specialize (Hin13 H13). vm_compute in Hin13. discriminate.
Qed.

(** C3 on the bench: the sample of a tick is the quantized, clamped FM
    output alone, whatever the ADPCM-B engine plays; its output lands in
    [sums].  With the FM engine silent and the ADPCM-B engine at level 64
    the chip emits 0, where the sum of both outputs would have given 64. *)
Theorem sample_tick_leaves_adpcm_out :
  (forall fm_level adpcm_level due,
     stream_out (sample_tick (playing fm_level adpcm_level due))
     = [clamp_sample (roundtrip_10_3 fm_level) 32768])
  /\ stream_out (sound_stream_update 1 (playing 0 64 1)) = [0]
  /\ sums (sound_stream_update 1 (playing 0 64 1)) = [64; 64]
  /\ clamp_sample (roundtrip_10_3 (0 + 64)) 32768 = 64.
Proof.
  split; [|repeat split].
  intros fm_level adpcm_level due.
  rewrite sample_tick_out. reflexivity.
Qed.

(** C4 on the bench: with the address latch at 0x09, a read of the data
    port at offset 1 asks the ADPCM-B engine for register
    [u32 (1 - 7)] = 0xFFFFFFFA, not for register 0x09 - 0x07 = 2. *)
Theorem read_adpcm_data_uses_bus_offset :
  fst (read 1 (latched 0x09)) = 0xfa
  /\ adpcm_probe_log (m_adpcm_b (snd (read 1 (latched 0x09))))
     = [adpcm_call_read 0xfffffffa]
  /\ adpcm_probe_log (m_adpcm_b (snd (read 1 (latched 0x09))))
     <> [adpcm_call_read (m_address (latched 0x09) - 0x07)].
Proof.
  repeat split. vm_compute. discriminate.
Qed.

(** C9 on the bench: offsets 1 and 3 are both odd, yet with the address
    latch at 0x1a they read different ADPCM-B registers and return
    different bytes. *)
Theorem read_data_port_depends_on_high_offset_bits :
  Z.land 1 1 = Z.land 3 1
  /\ fst (read 1 (latched 0x1a)) = 0xfa
  /\ fst (read 3 (latched 0x1a)) = 0xfc
  /\ read 1 (latched 0x1a) <> read 3 (latched 0x1a).
Proof.
  repeat split. vm_compute. discriminate.
Qed.

End OnTheBench.

(** * Further properties of the keyboard *)

Section KeyboardMore.

Import M0110A KeyboardRun.

Lemma land_const (x a b : Z) : Z.land (Z.land x a) b = Z.land x (Z.land a b).
Proof. symmetry. apply Z.land_assoc. Qed.

Lemma land_3ff_bound (v : Z) : Z.land v 0x03ff = v -> 0 <= v < 1024.
Proof.
  intros Hv. rewrite <- Hv. change 0x03ff with (Z.ones 10).
  rewrite Z.land_ones by lia. change 1024 with (2 ^ 10).
  apply Z.mod_pos_bound. lia.
Qed.

Lemma BIT_is_bit (x n : Z) : is_bit (BIT x n).
Proof. unfold is_bit, BIT. apply land_offset_1. Qed.

(** The two bits port 2 contributes to the row mask, in place. *)
Lemma high_rows_masks (data : Z) :
  let h := Z.shiftl (Z.land data 0x03) 8 in
  Z.land h 0x0300 = h /\ Z.land h 0x00ff = 0 /\ u16 h = h
  /\ Z.land h 0x03ff = h.
Proof.
  cbv zeta. rewrite Z.shiftl_land. change (Z.shiftl 0x03 8) with 0x0300.
  unfold u16. rewrite !land_const.
  change (Z.land 0x0300 0x0300) with 0x0300.
  change (Z.land 0x0300 0x00ff) with 0.
  change (Z.land 0x0300 0xffff) with 0x0300.
  change (Z.land 0x0300 0x03ff) with 0x0300.
  rewrite Z.land_0_r. repeat split.
Qed.

Lemma p1_w_row_drive (data : Z) (k : m0110a_device) :
  is_byte data ->
  m_row_drive (p1_w data k) = Z.lor (Z.land (m_row_drive k) 0x0300) data.
Proof.
  intros Hdata. unfold p1_w. cbn [set_row_drive m_row_drive].
  rewrite <- (u8_of_byte data Hdata). unfold u16, u8.
  rewrite Z.land_lor_distr_l, !land_const.
  change (Z.land 0x0300 0xffff) with 0x0300.
  change (Z.land 0xff (Z.land 0xffff 0xffff)) with 0xff.
  reflexivity.
Qed.

Lemma p2_w_row_drive_lor (data : Z) (k : m0110a_device) :
  m_row_drive (p2_w data k)
  = Z.lor (Z.land (m_row_drive k) 0x00ff) (Z.shiftl (Z.land data 0x03) 8).
Proof.
  rewrite p2_w_row_drive.
  destruct (high_rows_masks data) as (_ & _ & Hu & _).
  assert (Hd : u16 (Z.land data 0x03) = Z.land data 0x03).
  { unfold u16. rewrite land_const. reflexivity. }
  rewrite Hd. unfold u16 at 1. rewrite Z.land_lor_distr_l, land_const.
  change (Z.land 0x00ff 0xffff) with 0x00ff.
  fold (u16 (Z.shiftl (Z.land data 0x03) 8)). rewrite Hu. reflexivity.
Qed.

(** The whole device after [p2_w]. *)
Lemma p2_w_device (data : Z) (k : m0110a_device) :
  p2_w data k
  = mk_device
      (Z.lor (Z.land (m_row_drive k) 0x00ff) (Z.shiftl (Z.land data 0x03) 8))
      (BIT data 6) (BIT data 7) (m_host_data_in k)
      (host_link k
       ++ (if BIT data 6 =? m_host_clock_out k then []
           else [write_clock (BIT data 6)])
       ++ (if BIT data 7 =? m_host_data_out k then []
           else [write_data (BIT data 7)]))
      (scheduler k).
Proof.
  rewrite <- p2_w_row_drive_lor, p2_w_row_drive. unfold p2_w. cbv zeta.
  set (r := u16 _).
  unfold set_row_drive, notify, set_host_clock_out, set_host_data_out.
  cbn [m_row_drive m_host_clock_out m_host_data_out m_host_data_in
       host_link scheduler].
  destruct (Z.eqb_spec (BIT data 6) (m_host_clock_out k)) as [Hc|Hc];
    cbn [m_row_drive m_host_clock_out m_host_data_out m_host_data_in
         host_link scheduler];
    destruct (Z.eqb_spec (BIT data 7) (m_host_data_out k)) as [Hd|Hd];
    cbn [m_row_drive m_host_clock_out m_host_data_out m_host_data_in
         host_link scheduler app];
    rewrite ?app_nil_r, <- ?app_assoc;
    try rewrite <- Hc; try rewrite <- Hd; reflexivity.
Qed.

(** X1: started by [device_start] and driven by any sequence of port
    writes (bytes) and timer callbacks, the keyboard keeps [m_row_drive]
    within 10 bits and its three line members at 0 or 1. *)
Theorem run_keeps_members_well_formed :
  forall (l : list access),
    Forall access_ok l ->
    well_formed (run l device_start).
Proof.
  intros l Hok. unfold run.
  assert (Hstart : well_formed device_start).
  { unfold well_formed, is_bit. cbn. repeat split; auto; lia. }
  revert Hstart. generalize device_start as k.
  induction Hok as [|a l Ha Hl IH]; intros k Hk; [exact Hk|].
  cbn [fold_left]. apply IH. clear IH Hl l.
  destruct Hk as (Hrow & Hclk & Hdat & Hin).
  destruct a as [data|data|param]; cbn [step access_ok] in *.
  - unfold well_formed. rewrite p1_w_row_drive by exact Ha.
    unfold p1_w. cbn [set_row_drive m_host_clock_out m_host_data_out m_host_data_in].
    refine (conj _ (conj Hclk (conj Hdat Hin))).
    apply land_3ff_bound. rewrite <- (u8_of_byte data Ha). unfold u8.
    rewrite Z.land_lor_distr_l, !land_const. reflexivity.
  - rewrite p2_w_device. unfold well_formed.
    cbn [m_row_drive m_host_clock_out m_host_data_out m_host_data_in].
    destruct (high_rows_masks data) as (_ & _ & _ & Hh). cbv zeta in Hh.
    refine (conj _ (conj (BIT_is_bit _ _) (conj (BIT_is_bit _ _) Hin))).
    apply land_3ff_bound.
    rewrite Z.land_lor_distr_l, land_const, Hh. reflexivity.
  - unfold update_host_data, well_formed.
    destruct (Bool.eqb _ _); [exact (conj Hrow (conj Hclk (conj Hdat Hin)))|].
    cbn [set_host_data_in m_row_drive m_host_clock_out m_host_data_out m_host_data_in].
    refine (conj Hrow (conj Hclk (conj Hdat _))).
    unfold is_bit. destruct (to_bool param); auto.
Qed.

Lemma run_keeps_members_well_formed_witness :
  well_formed
    (run [port1_write 0xfe; port2_write 0x43; host_timer 5; port2_write 0x80]
         device_start).
Proof.
  apply run_keeps_members_well_formed.
  repeat constructor; unfold is_byte; lia.
Defined.

(** X2: written one after the other in either order, the two ports leave
    [m_row_drive] at the port 1 byte below bits 1-0 of the port 2 byte,
    whatever the mask was before. *)
Theorem ports_set_the_whole_row_drive :
  forall (lo hi : Z) (k : m0110a_device),
    is_byte lo ->
    m_row_drive (p2_w hi (p1_w lo k))
      = Z.lor lo (Z.shiftl (Z.land hi 0x03) 8)
    /\ m_row_drive (p1_w lo (p2_w hi k))
       = Z.lor lo (Z.shiftl (Z.land hi 0x03) 8).
Proof.
  intros lo hi k Hlo.
  destruct (high_rows_masks hi) as (H300 & Hff & _ & _). cbv zeta in *.
  assert (Hlo8 : Z.land lo 0x00ff = lo) by apply (u8_of_byte lo Hlo).
  split.
  - rewrite p2_w_row_drive_lor, p1_w_row_drive by exact Hlo.
    rewrite Z.land_lor_distr_l, land_const, Hlo8.
    change (Z.land 0x0300 0x00ff) with 0.
    rewrite Z.land_0_r, Z.lor_0_l. reflexivity.
  - rewrite p1_w_row_drive, p2_w_row_drive_lor by exact Hlo.
    rewrite Z.land_lor_distr_l, land_const, H300.
    change (Z.land 0x00ff 0x0300) with 0.
    rewrite Z.land_0_r, Z.lor_0_l. apply Z.lor_comm.
Qed.

Lemma ports_set_the_whole_row_drive_witness :
  m_row_drive (p2_w 0xc2 (p1_w 0x7f device_start)) = 0x027f.
Proof.
  assert (Hb : is_byte 0x7f) by (unfold is_byte; lia).
  exact (proj1 (ports_set_the_whole_row_drive 0x7f 0xc2 device_start Hb)).
Defined.

End KeyboardMore.

Section KeyboardScan.

Import M0110A KeyboardRun.

(** X3: once the two ports drive a mask whose only clear row bit is bit
    [i], the column read returns the byte of row [i], whatever the mask
    was before and whatever bits 7-2 of the port 2 byte are. *)
Theorem scanning_one_row_reads_it :
  forall (rows : nat -> Z) (k : m0110a_device) (i : nat) (lo hi : Z),
    (i < 10)%nat ->
    is_byte lo ->
    is_byte (rows i) ->
    Z.lor lo (Z.shiftl (Z.land hi 0x03) 8) = 0x03ff - 2 ^ Z.of_nat i ->
    fst (bus_r rows (p2_w hi (p1_w lo k))) = rows i.
Proof.
  intros rows k i lo hi Hi Hlo Hrow Hmask.
  unfold bus_r. cbn [fst].
  rewrite p2_w_row_drive_lor, p1_w_row_drive by exact Hlo.
  destruct (high_rows_masks hi) as (_ & Hff & _ & _). cbv zeta in Hff.
  rewrite Z.land_lor_distr_l, land_const.
  change (Z.land 0x0300 0x00ff) with 0.
  rewrite Z.land_0_r, Z.lor_0_l.
  fold (u8 lo). rewrite (u8_of_byte lo Hlo), Hmask.
  rewrite bus_r_loop_and_of_selected.
  unfold and_of_selected, selected_rows, m_rows_size.
  do 10 (destruct i as [|i];
         [vm_compute (0x03ff - 2 ^ Z.of_nat _);
          cbn [seq filter Z.of_nat Pos.of_succ_nat Pos.succ Z.testbit
               Pos.testbit Pos.pred_N negb map fold_right];
          apply (u8_of_byte _ Hrow)|]).
  lia.
Qed.

Lemma scanning_one_row_reads_it_witness :
  fst (bus_r (fun i => 0xf0 + Z.of_nat i)
         (p2_w 0xc3 (p1_w 0xf7 device_start))) = 0xf3.
Proof.
  apply (scanning_one_row_reads_it (fun i => 0xf0 + Z.of_nat i)
           device_start 3 0xf7 0xc3).
  - lia.
  - unfold is_byte. lia.
  - unfold is_byte. simpl. lia.
  - reflexivity.
Defined.

Lemma u8_is_byte (x : Z) : is_byte (u8 x).
Proof.
  unfold u8, is_byte. change 0xff with (Z.ones 8).
  rewrite Z.land_ones by lia. change 256 with (2 ^ 8).
  apply Z.mod_pos_bound. lia.
Qed.

Lemma fold_land_bits (rows : nat -> Z) (sel : nat -> bool) (l : list nat) (b : Z) :
  Z.testbit (fold_right Z.land 0xff (map rows (filter sel l))) b
  = Z.testbit 0xff b
    && forallb (fun i => negb (sel i) || Z.testbit (rows i) b) l.
Proof.
  induction l as [|i l IH]; cbn [filter map fold_right forallb].
  - rewrite andb_true_r. reflexivity.
  - destruct (sel i); cbn [map fold_right negb orb].
    + rewrite Z.land_spec, IH.
      destruct (Z.testbit (rows i) b), (Z.testbit 0xff b); reflexivity.
    + exact IH.
Qed.

(** X4: a column bit reads 1 exactly when it is one of the eight columns
    and every row that is selected (drive bit clear) has that bit at 1; a
    pressed key on a selected row pulls its column to 0.  The byte is
    within 0..255 even if a row port returns more than eight bits. *)
Theorem column_bit_is_and_of_selected_rows :
  forall (rows : nat -> Z) (k : m0110a_device),
    (forall b, 0 <= b ->
       Z.testbit (fst (bus_r rows k)) b
       = (b <? 8)
         && forallb (fun i => Z.testbit (m_row_drive k) (Z.of_nat i)
                              || Z.testbit (rows i) b)
                    (seq 0 10))
    /\ is_byte (fst (bus_r rows k)).
Proof.
  intros rows k. unfold bus_r. cbn [fst].
  rewrite bus_r_loop_and_of_selected.
  unfold and_of_selected, selected_rows, m_rows_size. split.
  - intros b Hb. rewrite fold_land_bits.
    change 0xff with (Z.ones 8). rewrite Z.testbit_ones_nonneg by lia.
    f_equal. generalize (seq 0 10) as l.
    induction l as [|i l IHl]; [reflexivity|].
    cbn [forallb]. rewrite negb_involutive, IHl. reflexivity.
  - set (l := map rows _).
    assert (Hu : u8 (fold_right Z.land 0xff l) = fold_right Z.land 0xff l).
    { destruct l as [|x l]; [reflexivity|]. cbn [fold_right].
      induction l as [|y l IHl] in x |- *; cbn [fold_right].
      - unfold u8. rewrite land_const. reflexivity.
      - unfold u8 in *. rewrite <- Z.land_assoc, (IHl y). reflexivity. }
    rewrite <- Hu. apply u8_is_byte.
Qed.

Lemma column_bit_is_and_of_selected_rows_witness :
  Z.testbit (fst (bus_r (fun i => 0xf0 + Z.of_nat i)
                    (set_row_drive 0x03fb device_start))) 3
  = (3 <? 8)
    && forallb (fun i => Z.testbit 0x03fb (Z.of_nat i)
                         || Z.testbit (0xf0 + Z.of_nat i) 3)
               (seq 0 10).
Proof.
  apply (proj1 (column_bit_is_and_of_selected_rows
                  (fun i => 0xf0 + Z.of_nat i)
                  (set_row_drive 0x03fb device_start)) 3).
  lia.
Defined.

End KeyboardScan.

Section KeyboardLink.

Import M0110A KeyboardRun.

Lemma last_cons_default (x : Z) (l : list Z) (p : Z) :
  last (x :: l) p = last l x.
Proof.
  assert (Hdef : forall (m : list Z) (y q r : Z),
            last (y :: m) q = last (y :: m) r).
  { induction m as [|z m IHm]; intros y q r; [reflexivity|].
    change (last (y :: z :: m) q) with (last (z :: m) q).
    change (last (y :: z :: m) r) with (last (z :: m) r).
    apply IHm. }
  destruct l as [|y l]; [reflexivity|].
  change (last (x :: y :: l) p) with (last (y :: l) p).
  apply Hdef.
Qed.

Lemma alternates_snoc (p : Z) (l : list Z) (b : Z) :
  alternates p (l ++ [b]) = alternates p l && (b =? 1 - last l p).
Proof.
  revert p. induction l as [|x l IH]; intros p.
  - cbn. apply andb_true_r.
  - cbn [app alternates]. rewrite IH, last_cons_default.
    apply andb_assoc.
Qed.

(** One line of the link over one [p2_w]: a level is pushed only when it
    differs from the member, and then it is the opposite level. *)
Lemma line_step (prev b : Z) (l : list Z) :
  is_bit prev -> is_bit b ->
  last l 1 = prev -> alternates 1 l = true ->
  last (l ++ (if b =? prev then [] else [b])) 1 = b
  /\ alternates 1 (l ++ (if b =? prev then [] else [b])) = true.
Proof.
  intros Hprev Hb Hlast Halt.
  destruct (Z.eqb_spec b prev) as [->|Hne].
  - rewrite app_nil_r. split; assumption.
  - rewrite last_last, alternates_snoc, Halt, Hlast. split; [reflexivity|].
    apply Z.eqb_eq. unfold is_bit in *. lia.
Qed.

Lemma levels_after_p2_w (data : Z) (k : m0110a_device) :
  clock_levels (host_link (p2_w data k))
  = clock_levels (host_link k)
    ++ (if BIT data 6 =? m_host_clock_out k then [] else [BIT data 6])
  /\ data_levels (host_link (p2_w data k))
     = data_levels (host_link k)
       ++ (if BIT data 7 =? m_host_data_out k then [] else [BIT data 7]).
Proof.
  rewrite p2_w_device. cbn [host_link]. unfold clock_levels, data_levels.
  rewrite !flat_map_app.
  destruct (BIT data 6 =? m_host_clock_out k);
    destruct (BIT data 7 =? m_host_data_out k);
    cbn [flat_map app]; rewrite ?app_nil_r; split; reflexivity.
Qed.

(** X5: whatever the MPU writes to its ports and whenever the host timer
    fires, the notifications on each line of the link alternate, starting
    from the idle-high level: the first clock notification is a 0, the
    next a 1, and so on, and likewise on the data line.  The host is never
    told the same level twice in a row. *)
Theorem host_notifications_alternate :
  forall (l : list access),
    alternates 1 (clock_levels (host_link (run l device_start))) = true
    /\ alternates 1 (data_levels (host_link (run l device_start))) = true.
Proof.
  intros l.
  assert (Hinv :
    is_bit (m_host_clock_out (run l device_start))
    /\ is_bit (m_host_data_out (run l device_start))
    /\ last (clock_levels (host_link (run l device_start))) 1
       = m_host_clock_out (run l device_start)
    /\ last (data_levels (host_link (run l device_start))) 1
       = m_host_data_out (run l device_start)
    /\ alternates 1 (clock_levels (host_link (run l device_start))) = true
    /\ alternates 1 (data_levels (host_link (run l device_start))) = true).
  { induction l as [|a l IH] using rev_ind.
    - cbn. unfold is_bit. repeat split; auto.
    - unfold run in *. rewrite fold_left_app. cbn [fold_left].
      set (k := fold_left _ l device_start) in *. clearbody k.
      destruct IH as (Hc & Hd & Hlc & Hld & Hac & Had).
      destruct a as [data|data|param]; cbn [step].
      + unfold p1_w. cbn. repeat split; assumption.
      + destruct (levels_after_p2_w data k) as [Hcl Hdl].
        rewrite Hcl, Hdl, p2_w_device.
        cbn [m_host_clock_out m_host_data_out].
        destruct (line_step _ (BIT data 6) _ Hc (BIT_is_bit _ _) Hlc Hac)
          as [Hl1 Ha1].
        destruct (line_step _ (BIT data 7) _ Hd (BIT_is_bit _ _) Hld Had)
          as [Hl2 Ha2].
        repeat split; try apply BIT_is_bit; assumption.
      + unfold update_host_data. destruct (Bool.eqb _ _); cbn;
          repeat split; assumption. }
  split; apply Hinv.
Qed.

(** X6: writing the same byte to port 2 a second time changes nothing and
    notifies nobody. *)
Theorem p2_w_twice_is_p2_w_once :
  forall (data : Z) (k : m0110a_device),
    p2_w data (p2_w data k) = p2_w data k.
Proof.
  intros data k.
  rewrite (p2_w_device data (p2_w data k)), (p2_w_device data k).
  cbn [m_row_drive m_host_clock_out m_host_data_out m_host_data_in
       host_link scheduler].
  rewrite !Z.eqb_refl, !app_nil_r.
  destruct (high_rows_masks data) as (_ & Hff & _ & _). cbv zeta in Hff.
  rewrite Z.land_lor_distr_l, Hff, Z.lor_0_r, land_const.
  reflexivity.
Qed.

(** X7: after the timer callback the data-in member is true exactly when
    the parameter is; firing it again with the same parameter changes
    nothing; and when the member held a line level before, the MPU port
    reads the inverted level: 0 for a non-zero parameter, 1 for zero. *)
Theorem update_host_data_follows_param :
  forall (param : Z) (k : m0110a_device),
    to_bool (m_host_data_in (update_host_data param k)) = to_bool param
    /\ update_host_data param (update_host_data param k)
       = update_host_data param k
    /\ (is_bit (m_host_data_in k) ->
        host_data_r (update_host_data param k)
        = if param =? 0 then 1 else 0).
Proof.
  intros param k. unfold update_host_data, host_data_r, to_bool.
  destruct (Z.eqb_spec param 0) as [Hp|Hp];
    destruct (Z.eqb_spec (m_host_data_in k) 0) as [Hk|Hk];
    cbn [negb Bool.eqb set_host_data_in m_host_data_in Z.eqb];
    rewrite ?Hk; cbn [negb Bool.eqb Z.eqb];
    repeat split; try reflexivity;
    try (destruct (Z.eqb_spec (m_host_data_in k) 0); [contradiction|reflexivity]);
    try (destruct (Z.eqb_spec (m_host_data_in k) 0); [reflexivity|contradiction]);
    unfold is_bit; intros [H0|H1]; try contradiction;
    rewrite ?H0, ?H1; try reflexivity; congruence.
Qed.

Lemma update_host_data_follows_param_witness :
  host_data_r (update_host_data 7 device_start) = 0.
Proof.
  apply (proj2 (proj2 (update_host_data_follows_param 7 device_start))).
  right. reflexivity.
Defined.

End KeyboardLink.

(** * Further properties of the sound chip *)

Section ChipMore.

Import Y8950 ChipRun.

Context {E A : Type} `{FmEngine E} `{AdpcmEngine A} `{Constants} `{Dac}.

Lemma nibble_bound (x : Z) : Z.land x 0x0f = x -> 0 <= x <= 0x0f.
Proof.
  intros Hx. rewrite <- Hx. change 0x0f with (Z.ones 4) at 1 2.
  rewrite Z.land_ones by lia.
  pose proof (Z.mod_pos_bound x (2 ^ 4) ltac:(lia)). lia.
Qed.

Lemma combine_status_frame (d : y8950_device E A) :
  let d' := snd (combine_status d) in
  m_address d' = m_address d /\ m_io_ddr d' = m_io_ddr d
  /\ m_irq_mask d' = m_irq_mask d /\ m_adpcm_b d' = m_adpcm_b d
  /\ sums d' = sums d /\ stream_due d' = stream_due d
  /\ stream_out d' = stream_out d /\ bus_out d' = bus_out d.
Proof. cbv zeta. rewrite combine_status_device. repeat split. Qed.

Lemma read_frame :
  forall (offset : Z) (d : y8950_device E A),
    let d' := snd (read offset d) in
    m_address d' = m_address d
    /\ m_io_ddr d' = m_io_ddr d
    /\ m_irq_mask d' = m_irq_mask d
    /\ sums d' = sums d
    /\ stream_due d' = stream_due d
    /\ stream_out d' = stream_out d
    /\ (bus_out d' = bus_out d
        \/ bus_out d' = bus_out d ++ [logerror (Z.land offset 3)]).
Proof.
  intros offset d. cbv zeta. unfold read.
  destruct (land_offset_1 offset) as [-> | ->]; cbn [Z.eqb Pos.eqb].
  - destruct (combine_status_frame d) as (Ha & Hi & Hm & _ & Hs & Hd & Ho & Hb).
    cbv zeta in *. rewrite Ha, Hi, Hm, Hs, Hd, Ho, Hb.
    repeat split. left. reflexivity.
  - destruct (m_address d =? 0x05); [repeat split; left; reflexivity|].
    destruct ((m_address d =? 0x09) || (m_address d =? 0x1a)).
    + destruct (adpcm_read _ _) as [r a]. repeat split. left. reflexivity.
    + destruct (m_address d =? 0x19); repeat split;
        [left|right]; reflexivity.
Qed.

(** X8: a read never flushes the stream and never touches the address
    latch, the I/O direction latch, the IRQ mask or the [sums] buffer; it
    pushes nothing to the keyboard or I/O handlers, at most one
    diagnostic. *)
Theorem read_touches_no_latch :
  forall (offset : Z) (d : y8950_device E A),
    let d' := snd (read offset d) in
    m_address d' = m_address d
    /\ m_io_ddr d' = m_io_ddr d
    /\ m_irq_mask d' = m_irq_mask d
    /\ sums d' = sums d
    /\ stream_due d' = stream_due d
    /\ stream_out d' = stream_out d
    /\ (bus_out d' = bus_out d
        \/ bus_out d' = bus_out d ++ [logerror (Z.land offset 3)]).
Proof.
  exact read_frame.
Qed.

Lemma write_data_latches (value : Z) (d : y8950_device E A) :
  m_address (write_data value d) = m_address d
  /\ (m_io_ddr (write_data value d) = m_io_ddr d
      \/ m_io_ddr (write_data value d) = u8 (Z.land value 0x0f))
  /\ (m_irq_mask (write_data value d) = m_irq_mask d
      \/ m_irq_mask (write_data value d)
         = u8 (Z.land (Z.lnot value) ALL_IRQS))
  /\ (bus_out (write_data value d) = bus_out d
      \/ bus_out (write_data value d)
         = bus_out d ++ [keyboard_write 0 value]
      \/ bus_out (write_data value d)
         = bus_out d ++ [io_write 0 (u8 (Z.land value (m_io_ddr d)))]).
Proof.
  unfold write_data.
  repeat match goal with
         | |- context [if ?c then _ else _] => destruct c
         end;
    repeat split; auto.
Qed.

(** X10: started as the constructor leaves it and driven by any sequence
    of reads and writes at any offsets, the chip keeps [m_io_ddr] within
    the low nibble and [m_irq_mask] within [ALL_IRQS], and every byte it
    ever hands to the I/O-output handler is within 0..15. *)
Theorem bus_run_keeps_latches :
  forall (l : list bus_access) (opl : E) (adpcm : A) (mix : list Z)
         (due : nat) (kbd io : Z),
    let d := bus_run l (constructed opl adpcm mix due kbd io) in
    latches_ok d /\ io_events_gated (bus_out d).
Proof.
  intros l opl adpcm mix due kbd io. cbv zeta. unfold bus_run.
  assert (Hstart : latches_ok (constructed opl adpcm mix due kbd io)
                   /\ io_events_gated
                        (bus_out (constructed opl adpcm mix due kbd io))).
  { unfold latches_ok, io_events_gated. cbn. repeat split; [|constructor].
    unfold u8. generalize ALL_IRQS as m. intros m. land_bits. }
  revert Hstart. generalize (constructed opl adpcm mix due kbd io) as d.
  induction l as [|a l IH]; intros d Hd; [exact Hd|].
  cbn [fold_left]. apply IH. clear IH.
  destruct Hd as ((Hddr & Hmask) & Hgated).
  destruct a as [offset|offset value]; cbn [bus_step].
  - destruct (read_frame offset d) as (_ & Hi & Hm & _ & _ & _ & Hb).
    cbv zeta in *. unfold latches_ok. rewrite Hi, Hm.
    split; [split; assumption|].
    destruct Hb as [-> | ->]; [assumption|].
    apply Forall_app. split; [assumption|]. repeat constructor.
  - unfold write.
    destruct (land_offset_1 offset) as [-> | ->]; cbn [Z.eqb Pos.eqb].
    + split; [split|]; assumption.
    + destruct (stream_update_frame d) as (_ & Hi & Hm & Hb).
      destruct (write_data_latches value (stream_update d))
        as (_ & Hi' & Hm' & Hb').
      rewrite Hi, Hm, Hb in *. unfold latches_ok.
      split; [split|].
      * destruct Hi' as [-> | ->]; [assumption|].
        unfold u8. generalize value as v. intros v.
        rewrite !land_const. reflexivity.
      * destruct Hm' as [-> | ->]; [assumption|].
        unfold u8. generalize (Z.lnot value) as v, ALL_IRQS as m.
        intros v m. land_bits.
      * unfold io_events_gated in *.
        destruct Hb' as [-> | [-> | ->]]; [assumption| |];
          apply Forall_app; (split; [assumption|]);
          (constructor; [|constructor]); [exact I|].
        apply nibble_bound. rewrite <- Hddr. unfold u8.
        generalize (m_io_ddr d) as m, value as v. intros m v.
        rewrite !land_const. reflexivity.
Qed.

End ChipMore.

Section ChipPorts.

Import Y8950 ChipRun.

Context {E A : Type} `{FmEngine E} `{AdpcmEngine A} `{Constants} `{Dac}.

Lemma write_address_port (offset value : Z) (d : y8950_device E A) :
  Z.land offset 1 = 0 -> write offset value d = set_address value d.
Proof. intros Heven. unfold write. rewrite Heven. reflexivity. Qed.

Lemma write_data_port (offset value : Z) (d : y8950_device E A) :
  Z.land offset 1 = 1 ->
  write offset value d = write_data value (stream_update d).
Proof. intros Hodd. unfold write. rewrite Hodd. reflexivity. Qed.

Lemma write_data_io_direction (value : Z) (d : y8950_device E A) :
  m_address d = 0x18 ->
  write_data value d = set_io_ddr (u8 (Z.land value 0x0f)) d.
Proof. intros Ha. unfold write_data. rewrite Ha. reflexivity. Qed.

Lemma write_data_io_data (value : Z) (d : y8950_device E A) :
  m_address d = 0x19 ->
  write_data value d
  = emit (io_write 0 (u8 (Z.land value (m_io_ddr d)))) d.
Proof. intros Ha. unfold write_data. rewrite Ha. reflexivity. Qed.

Lemma write_data_irq_control (value : Z) (d : y8950_device E A) :
  m_address d = 0x04 ->
  m_irq_mask (write_data value d) = u8 (Z.land (Z.lnot value) ALL_IRQS).
Proof. intros Ha. unfold write_data. rewrite Ha. reflexivity. Qed.

(** X11: programming the I/O direction register (0x18) with [mask] and
    then writing [value] to the I/O data register (0x19) hands the I/O
    handler [value] restricted to the low nibble of [mask], and nothing
    else reaches the handlers; bits 7-4 of the direction byte never open
    a pin. *)
Theorem io_direction_gates_io_data :
  forall (ea od mask value : Z) (d : y8950_device E A),
    Z.land ea 1 = 0 ->
    Z.land od 1 = 1 ->
    bus_out (write od value (write ea 0x19 (write od mask (write ea 0x18 d))))
    = bus_out d ++ [io_write 0 (Z.land value (Z.land mask 0x0f))].
Proof.
  intros ea od mask value d Hea Hod.
  rewrite (write_address_port ea 0x18 d Hea).
  rewrite (write_data_port od mask _ Hod).
  destruct (stream_update_frame (set_address 0x18 d)) as (Ha1 & _ & _ & Hb1).
  rewrite (write_data_io_direction mask _ Ha1).
  rewrite (write_address_port ea 0x19 _ Hea).
  rewrite (write_data_port od value _ Hod).
  set (d3 := set_address 0x19 _) in *.
  destruct (stream_update_frame d3) as (Ha3 & Hi3 & _ & Hb3).
  rewrite (write_data_io_data value _ Ha3).
  cbn [emit bus_out]. rewrite Hb3, Hi3. subst d3.
  cbn [set_address set_io_ddr bus_out m_io_ddr]. rewrite Hb1.
  cbn [set_address bus_out]. do 3 f_equal.
  unfold u8. rewrite !land_const. reflexivity.
Qed.

(** X12: once a byte has been written to the IRQ control register (0x04),
    the next status read shows none of the bits set in that byte: it
    returns the combined status under the new mask, the complement of the
    byte within [ALL_IRQS]. *)
Theorem irq_control_hides_written_bits :
  forall (ea od es value : Z) (d : y8950_device E A),
    Z.land ea 1 = 0 ->
    Z.land od 1 = 1 ->
    Z.land es 1 = 0 ->
    let d' := write od value (write ea 0x04 d) in
    fst (read es d')
      = Z.land (raw_status d') (u8 (Z.land (Z.lnot value) ALL_IRQS))
    /\ Z.land (fst (read es d')) value = 0.
Proof.
  intros ea od es value d Hea Hod Hes. cbv zeta.
  rewrite (write_address_port ea 0x04 d Hea).
  rewrite (write_data_port od value _ Hod).
  destruct (stream_update_frame (set_address 0x04 d)) as (Ha & _).
  pose proof (write_data_irq_control value _ Ha) as Hmask.
  set (d' := write_data value _) in *. clearbody d'.
  assert (Hread : fst (read es d')
                  = Z.land (raw_status d')
                           (u8 (Z.land (Z.lnot value) ALL_IRQS))).
  { unfold read. rewrite Hes. cbn [Z.eqb]. rewrite combine_status_raw, Hmask.
    reflexivity. }
  split; [exact Hread|]. rewrite Hread. unfold u8.
  apply Z.bits_inj'. intros n Hn.
  rewrite !Z.land_spec, Z.lnot_spec, Z.bits_0 by exact Hn.
  destruct (Z.testbit value n); cbn [negb andb];
    rewrite ?andb_false_r; reflexivity.
Qed.

(** X13: with [m_irq_mask] within [ALL_IRQS], which every run from the
    constructor keeps, a status read never shows a bit outside
    [ALL_IRQS], and never one outside [m_irq_mask]. *)
Theorem status_stays_within_all_irqs :
  forall (offset : Z) (d : y8950_device E A),
    Z.land offset 1 = 0 ->
    latches_ok d ->
    Z.land (fst (read offset d)) ALL_IRQS = fst (read offset d)
    /\ Z.land (fst (read offset d)) (m_irq_mask d) = fst (read offset d).
Proof.
  intros offset d Heven (_ & Hmask).
  unfold read. rewrite Heven. cbn [Z.eqb]. rewrite combine_status_raw.
  split.
  - rewrite <- Hmask at 1 2. generalize (raw_status d) as s,
      (m_irq_mask d) as m, ALL_IRQS as a. intros s m a.
    rewrite !land_const. f_equal. f_equal. apply Z.land_diag.
  - rewrite land_const, Z.land_diag. reflexivity.
Qed.

End ChipPorts.

Section ChipEngines.

Import Y8950 ChipRun.

Context {E A : Type} `{FmEngine E} `{AdpcmEngine A} `{Constants} `{Dac}.

(** X14: on the write path the ADPCM-B register number never wraps.  A
    data-port write either leaves the ADPCM-B engine as the flush left it,
    or hands it exactly one register write, at the register 7 below the
    address latch, and that register lies within 0x00..0x10. *)
Theorem adpcm_b_write_regnum_in_range :
  forall (offset value : Z) (d : y8950_device E A),
    Z.land offset 1 = 1 ->
    m_adpcm_b (write offset value d) = m_adpcm_b (stream_update d)
    \/ (0 <= m_address d - 0x07 <= 0x10
        /\ exists data,
             m_adpcm_b (write offset value d)
             = adpcm_write (m_address d - 0x07) data
                           (m_adpcm_b (stream_update d))).
Proof.
  intros offset value d Hodd. rewrite (write_data_port offset value d Hodd).
  destruct (stream_update_frame d) as (Ha & _).
  set (d1 := stream_update d) in *. clearbody d1. rewrite <- Ha.
  unfold write_data.
  destruct (Z.eqb_spec (m_address d1) 0x04) as [H4|H4].
  { left. reflexivity. }
  destruct (Z.eqb_spec (m_address d1) 0x06) as [H6|H6]; [left; reflexivity|].
  destruct (Z.eqb_spec (m_address d1) 0x08) as [H8|H8].
  { right. rewrite H8. split; [lia|]. eexists. reflexivity. }
  destruct (is_adpcm_b_register (m_address d1)) eqn:Hreg.
  { right. apply is_adpcm_b_register_In in Hreg.
    rewrite (adpcm_b_register_regnum _ Hreg). split.
    - unfold adpcm_b_registers in Hreg. cbn [In] in Hreg.
      repeat (destruct Hreg as [<-|Hreg]; [lia|]). contradiction.
    - eexists. reflexivity. }
  destruct (m_address d1 =? 0x18); [left; reflexivity|].
  destruct (m_address d1 =? 0x19); left; reflexivity.
Qed.

(** X15: producing [n] samples clocks the FM engine [n] times with channel
    mask 0x1ff and the ADPCM-B engine [n] times with mask 0x01, and adds
    exactly [n] samples to the stream; producing [n + m] samples is
    producing [n] and then [m]. *)
Theorem sound_stream_update_clocks_once_per_sample :
  forall (n : nat) (d : y8950_device E A),
    m_opl (sound_stream_update n d) = Nat.iter n (fm_clock 0x1ff) (m_opl d)
    /\ m_adpcm_b (sound_stream_update n d)
       = Nat.iter n (adpcm_clock 0x01) (m_adpcm_b d)
    /\ length (stream_out (sound_stream_update n d))
       = (length (stream_out d) + n)%nat
    /\ (forall m, sound_stream_update (n + m) d
                  = sound_stream_update m (sound_stream_update n d)).
Proof.
  induction n as [|n IH]; intros d.
  - cbn. repeat split. lia.
  - cbn [sound_stream_update]. destruct (IH (sample_tick d)) as (Ho & Ha & Hl & Hc).
    rewrite Ho, Ha, Hl, !Nat.iter_succ_r. repeat split.
    + rewrite sample_tick_out, length_app. cbn. lia.
    + intros m. cbn [Nat.add sound_stream_update]. apply Hc.
Qed.

(** X16: the address latch only moves on a write to the address port.
    Any sequence of reads and of data-port writes, whatever they trigger,
    leaves it where it was. *)
Theorem address_latch_is_sticky :
  forall (l : list bus_access) (d : y8950_device E A),
    Forall is_data_access l ->
    m_address (bus_run l d) = m_address d.
Proof.
  intros l d Hl. revert d. unfold bus_run.
  induction Hl as [|a l Ha Hl IH]; intros d; [reflexivity|].
  cbn [fold_left]. rewrite IH. clear IH.
  destruct a as [offset|offset value]; cbn [bus_step is_data_access] in *.
  - apply (read_frame offset d).
  - rewrite (write_data_port offset value d Ha).
    rewrite (proj1 (write_data_latches value _)).
    apply (stream_update_frame d).
Qed.

End ChipEngines.

Section MoreOnTheBench.

Import Y8950 ChipRun Bench.

Lemma io_direction_gates_io_data_witness :
  bus_out (write 1 0xff (write 0 0x19 (write 1 0xf5 (write 0 0x18 power_on))))
  = [io_write 0 0x05].
Proof.
  exact (io_direction_gates_io_data 0 1 0xf5 0xff power_on
           eq_refl eq_refl).
Defined.

Lemma irq_control_hides_written_bits_witness :
  fst (read 0 (write 1 0x40 (write 0 0x04 (flagged 0xc7 0x07)))) = 0x18.
Proof.
  exact (proj1 (irq_control_hides_written_bits 0 1 0 0x40
                  (flagged 0xc7 0x07) eq_refl eq_refl eq_refl)).
Defined.

Lemma status_stays_within_all_irqs_witness :
  Z.land (fst (read 2 (flagged 0xc7 0x07))) 0x78
  = fst (read 2 (flagged 0xc7 0x07)).
Proof.
  assert (Hok : latches_ok (flagged 0xc7 0x07)).
  { unfold latches_ok. split; reflexivity. }
  exact (proj1 (status_stays_within_all_irqs 2 (flagged 0xc7 0x07)
                  eq_refl Hok)).
Defined.

Lemma adpcm_b_write_regnum_in_range_witness :
  m_adpcm_b (write 1 0x33 (latched 0x0c)) = m_adpcm_b (stream_update (latched 0x0c))
  \/ (0 <= m_address (latched 0x0c) - 0x07 <= 0x10
      /\ exists data,
           m_adpcm_b (write 1 0x33 (latched 0x0c))
           = adpcm_write (m_address (latched 0x0c) - 0x07) data
                         (m_adpcm_b (stream_update (latched 0x0c)))).
Proof.
  exact (adpcm_b_write_regnum_in_range 1 0x33 (latched 0x0c) eq_refl).
Defined.

Lemma address_latch_is_sticky_witness :
  m_address (bus_run [bus_write 1 0x33; bus_read 0; bus_read 1; bus_write 3 0]
                     (latched 0x0c))
  = 0x0c.
Proof.
  apply (address_latch_is_sticky
           [bus_write 1 0x33; bus_read 0; bus_read 1; bus_write 3 0]
           (latched 0x0c)).
  repeat constructor.
Defined.

End MoreOnTheBench.
